(** * PyAirbyte: a shallow embedding of the cache write path and of the
      Cloud API helpers

    The development follows the layout of the Python package:
    - [airbyte/_util/api_util.py]        -> [Module ApiUtil]
    - [airbyte/caches/bigquery.py]       -> [Module BigQuery]
    - [airbyte/_processors/file/jsonl.py]-> [Module Jsonl]
    - [airbyte/strategies.py] (absent)   -> [Module Strategies]

    Python exceptions are values of [exn]; a call that may raise returns a
    [result].  Calls into vendor libraries (the airbyte_api SDK, requests,
    pandas_gbq, pyarrow, orjson, sqlalchemy) are Section variables: the
    theorems hold for every behaviour of the vendor code. *)

From Stdlib Require Import ZArith String Ascii List Bool Lia.
From stdpp Require Import base option list gmap strings.
Import ListNotations.

Local Open Scope string_scope.
Local Open Scope Z_scope.

(** ** Exceptions and results *)

Inductive exn : Type :=
| AirbyteError
| AirbyteMissingResourceError
| AirbyteMultipleResourcesError
| AirbyteConnectionSyncError
| AirbyteConnectorCheckFailedError
| AirbyteLibInternalError
| NotImplementedError
| HTTPError
| JSONDecodeError
| AttributeError
| KeyError
| TypeError
| IndexError
| OSError.

Inductive result (A : Type) : Type :=
| Ok (a : A)
| Raise (e : exn).
Arguments Ok {A} a.
Arguments Raise {A} e.

Global Instance result_ret : MRet result := fun _ a => Ok a.
Global Instance result_bind : MBind result := fun _ _ k r =>
  match r with
  | Ok a => k a
  | Raise e => Raise e
  end.

Lemma bind_Ok {A B : Type} (r : result A) (k : A -> result B) (b : B) :
  r ≫= k = Ok b -> exists a, r = Ok a /\ k a = Ok b.
Proof. destruct r as [a|e]; simpl; [eauto | discriminate]. Qed.

(** ** JSON values, as [json.loads] and [Response.json] hand them to Python *)

#[local] Set Warnings "-register-all".

Inductive json : Type :=
| JNull
| JBool (b : bool)
| JNum (z : Z)
| JStr (s : string)
| JArr (l : list json)
| JObj (members : list (string * json)).

(** Lookup in a Python dict decoded from a JSON object. *)
Fixpoint dict_lookup (k : string) (d : list (string * json)) : option json :=
  match d with
  | [] => None
  | (k', v) :: d' => if String.eqb k k' then Some v else dict_lookup k d'
  end.

(** [d[k]]: KeyError on a dict without the key, TypeError on a value that is
    not subscriptable by a string. *)
Definition py_getitem (d : json) (k : string) : result json :=
  match d with
  | JObj m => match dict_lookup k m with
              | Some v => Ok v
              | None => Raise KeyError
              end
  | _ => Raise TypeError
  end.

(** [d.get(k)] / [d.get(k, None)]: only dicts have [.get]. *)
Definition py_get (d : json) (k : string) : result json :=
  match d with
  | JObj m => match dict_lookup k m with
              | Some v => Ok v
              | None => Ok JNull
              end
  | _ => Raise AttributeError
  end.

(** [v == s] for a decoded JSON value [v] and a string literal [s]. *)
Definition py_eq_str (v : json) (s : string) : bool :=
  match v with
  | JStr s' => String.eqb s' s
  | _ => false
  end.

Lemma py_eq_str_true v s : py_eq_str v s = true <-> v = JStr s.
Proof.
  destruct v; simpl; try (split; [discriminate | intros H; discriminate H]).
  rewrite String.eqb_eq. split; [intros -> | intros [= ->]]; reflexivity.
Qed.

(** [s in t] for two strings. *)
Fixpoint is_substring (s t : string) : bool :=
  String.prefix s t
  || match t with
     | EmptyString => false
     | String _ t' => is_substring s t'
     end.

(** * airbyte/_util/api_util.py *)

Module ApiUtil.

Definition CLOUD_API_ROOT : string := "https://api.airbyte.com/v1".
Definition LEGACY_API_ROOT : string := "https://cloud.airbyte.com/api/v1".

(** [status_ok]: the status code is in [200, 300). *)
Definition status_ok (status_code : Z) : bool :=
  (200 <=? status_code) && (status_code <? 300).

Lemma status_ok_range c : status_ok c = true <-> 200 <= c < 300.
Proof. unfold status_ok. rewrite andb_true_iff, Z.leb_le, Z.ltb_lt. tauto. Qed.

(** ** Objects of the airbyte_api SDK

    The operation responses ([GetWorkspaceResponse], [GetSourceResponse],
    ...) are dataclasses with a [status_code] and one optional payload
    attribute each.  Which payload attribute a response class carries
    matters below, so the payload attributes are kept as a map from
    attribute name to value: reading an attribute the class does not declare
    raises AttributeError.  [payload] stands for the SDK's model classes
    ([WorkspaceResponse], [SourceResponse], ...); their instances are
    always truthy, [None] is the only falsy value of an optional payload. *)

Record ConnectionResponse : Type := {
  connection_id : string;
  name : string;
  source_id : string;
  destination_id : string;
}.

Record ListConnectionsRequest : Type := {
  workspace_ids : list string;
  include_deleted : bool;
  limit : Z;
  offset : Z;
}.

Record ConnectionsResponse : Type := { data : list ConnectionResponse }.

Record ListConnectionsResponse : Type := {
  lc_status_code : Z;
  connections_response : option ConnectionsResponse;
}.

Section Resources.

Variable payload : Type.

Record sdk_response : Type := {
  status_code : Z;
  attributes : gmap string (option payload);
}.

Definition getattr (response : sdk_response) (attr : string)
  : result (option payload) :=
  match attributes response !! attr with
  | Some v => Ok v
  | None => Raise AttributeError
  end.

(** The client object returned by [airbyte_api.AirbyteAPI(...)], one
    function per endpoint used in this module; each takes the id of the
    request object. *)
Record AirbyteAPI : Type := {
  workspaces_get_workspace : string -> sdk_response;
  connections_get_connection : string -> sdk_response;
  connections_list_connections : ListConnectionsRequest -> ListConnectionsResponse;
  jobs_get_job : string -> sdk_response;
  sources_get_source : string -> sdk_response;
}.

(** [get_airbyte_server_instance(api_key=..., api_root=...)]. *)
Variable get_airbyte_server_instance : string -> string -> AirbyteAPI.

(** [status_ok(response.status_code) and response.<attr>], then return the
    attribute or raise AirbyteMissingResourceError. [and] does not read the
    attribute when the status is not OK. *)
Definition get_workspace (workspace_id api_root api_key : string) : result payload :=
  let airbyte_instance := get_airbyte_server_instance api_key api_root in
  let response := workspaces_get_workspace airbyte_instance workspace_id in
  if status_ok (status_code response) then
    v ← getattr response "workspace_response";
    match v with
    | Some workspace_response => Ok workspace_response
    | None => Raise AirbyteMissingResourceError
    end
  else Raise AirbyteMissingResourceError.

Definition get_connection (workspace_id connection_id api_root api_key : string)
  : result payload :=
  let airbyte_instance := get_airbyte_server_instance api_key api_root in
  let response := connections_get_connection airbyte_instance connection_id in
  if status_ok (status_code response) then
    v ← getattr response "connection_response";
    match v with
    | Some connection_response => Ok connection_response
    | None => Raise AirbyteMissingResourceError
    end
  else Raise AirbyteMissingResourceError.

Definition get_job_info (job_id api_root api_key : string) : result payload :=
  let airbyte_instance := get_airbyte_server_instance api_key api_root in
  let response := jobs_get_job airbyte_instance job_id in
  if status_ok (status_code response) then
    v ← getattr response "job_response";
    match v with
    | Some job_response => Ok job_response
    | None => Raise AirbyteMissingResourceError
    end
  else Raise AirbyteMissingResourceError.

(** [get_source] tests and returns [response.connection_response]. *)
Definition get_source (source_id api_root api_key : string) : result payload :=
  let airbyte_instance := get_airbyte_server_instance api_key api_root in
  let response := sources_get_source airbyte_instance source_id in
  if status_ok (status_code response) then
    v ← getattr response "connection_response";
    match v with
    | Some connection_response => Ok connection_response
    | None => Raise AirbyteMissingResourceError
    end
  else Raise AirbyteMissingResourceError.

(** ** [list_connections]

    The parameter [name_filter] is a cell of the generator's frame.  It
    holds [None], a string or a caller's predicate; when it holds a string
    the nested [def name_filter] rebinds the same cell to the nested
    function, whose body reads the cell again when it is called. *)

Inductive name_filter_value : Type :=
| NFNone
| NFStr (s : string)
| NFCallable (f : string -> bool)
| NFNested.

(** [v in name], for the value [v] held by the cell. *)
Definition py_in (v : name_filter_value) (nm : string) : result bool :=
  match v with
  | NFStr s => Ok (is_substring s nm)
  | _ => Raise TypeError
  end.

(** [name_filter(connection.name)], evaluated with the cell's content. *)
Definition call_name_filter (cell : name_filter_value) (nm : string) : result bool :=
  match cell with
  | NFCallable f => Ok (f nm)
  | NFNested => py_in cell nm
  | NFNone | NFStr _ => Raise TypeError
  end.

(** [if isinstance(name_filter, str): def name_filter(name): ...] *)
Definition rebind_name_filter (name_filter : name_filter_value) : name_filter_value :=
  match name_filter with
  | NFStr _ => NFNested
  | other => other
  end.

(** How a generator ends. *)
Inductive gen_stop : Type :=
| StopIteration
| GenRaise (e : exn)
| OutOfFuel.

(** The inner [for connection in connections] loop: the connections
    yielded, and the exception that ended the loop if there was one. *)
Fixpoint yield_matching (cell : name_filter_value)
    (connections : list ConnectionResponse)
  : list ConnectionResponse * option exn :=
  match connections with
  | [] => ([], None)
  | connection :: rest =>
    let test :=
      match cell with
      | NFNone => Ok true
      | _ => call_name_filter cell (name connection)
      end in
    match test with
    | Raise e => ([], Some e)
    | Ok keep =>
      let '(ys, e) := yield_matching cell rest in
      (((if keep then [connection] else []) ++ ys)%list, e)
    end
  end.

(** The [while True] loop; [fuel] bounds the number of pages requested. *)
Fixpoint list_connections_loop (fuel : nat) (airbyte_instance : AirbyteAPI)
    (workspace_id : string) (cell : name_filter_value) (lim off : Z)
  : list ConnectionResponse * gen_stop :=
  match fuel with
  | O => ([], OutOfFuel)
  | S fuel' =>
    let response :=
      connections_list_connections airbyte_instance
        {| workspace_ids := [workspace_id]; include_deleted := false;
           limit := lim; offset := off |} in
    match status_ok (lc_status_code response), connections_response response with
    | true, Some cr =>
      match data cr with
      | [] => ([], StopIteration)
      | connections =>
        match yield_matching cell connections with
        | (ys, Some e) => (ys, GenRaise e)
        | (ys, None) =>
          let '(zs, stop) :=
            list_connections_loop fuel' airbyte_instance workspace_id cell
              lim (off + lim) in
          ((ys ++ zs)%list, stop)
        end
      end
    | _, _ => ([], GenRaise AirbyteError)
    end
  end.

Definition list_connections (fuel : nat) (workspace_id : string)
    (name_filter : name_filter_value) (api_root api_key : string)
  : list ConnectionResponse * gen_stop :=
  let airbyte_instance := get_airbyte_server_instance api_key api_root in
  let off := 0 in
  let lim := 50 in
  let cell := rebind_name_filter name_filter in
  list_connections_loop fuel airbyte_instance workspace_id cell lim off.

(** ** [get_connection_by_name]; [None] when the listing ran out of fuel. *)
Definition get_connection_by_name (fuel : nat)
    (workspace_id connection_name api_root api_key : string)
  : option (result ConnectionResponse) :=
  match list_connections fuel workspace_id NFNone api_root api_key with
  | (_, OutOfFuel) => None
  | (_, GenRaise e) => Some (Raise e)
  | (connections, StopIteration) =>
    let found :=
      List.filter (fun connection => String.eqb (name connection) connection_name)
        connections in
    if Nat.eqb (length found) 0 then Some (Raise AirbyteMissingResourceError)
    else if Nat.ltb 1 (length found) then Some (Raise AirbyteMultipleResourcesError)
    else match found with
         | c :: _ => Some (Ok c)
         | [] => Some (Raise IndexError)
         end
  end.

End Resources.

(** ** [get_destination]

    [DestinationResponse] is the SDK model; [configuration] is the type of
    its [configuration] attribute.  [json.loads] and the four [from_dict]
    class methods of the typed configuration models are vendor code. *)

Section Destinations.

Variable configuration : Type.

Record DestinationResponse : Type := {
  dr_destination_id : string;
  dr_name : string;
  dr_destination_type : string;
  dr_workspace_id : string;
  dr_configuration : configuration;
}.

(** [GetDestinationResponse]: [raw_response_text] is
    [response.raw_response.text]. *)
Record GetDestinationResponse : Type := {
  gd_status_code : Z;
  raw_response_text : string;
  destination_response : option DestinationResponse;
}.

Variable json_loads : string -> result json.
Variable DestinationSnowflake_from_dict : json -> result configuration.
Variable DestinationBigquery_from_dict : json -> result configuration.
Variable DestinationPostgres_from_dict : json -> result configuration.
Variable DestinationDuckdb_from_dict : json -> result configuration.

(** [destinations.get_destination(GetDestinationRequest(destination_id))]
    of the client built for [api_key] and [api_root]. *)
Variable destinations_get_destination :
  string -> string -> string -> GetDestinationResponse.

(** [response.destination_response.configuration = value]: the right-hand
    side has been evaluated by the caller; assigning an attribute of [None]
    raises AttributeError.  The object is updated in place, its other
    attributes are not touched. *)
Definition set_configuration (dr : option DestinationResponse) (value : configuration)
  : result (option DestinationResponse) :=
  match dr with
  | None => Raise AttributeError
  | Some d =>
    Ok (Some {| dr_destination_id := dr_destination_id d;
                dr_name := dr_name d;
                dr_destination_type := dr_destination_type d;
                dr_workspace_id := dr_workspace_id d;
                dr_configuration := value |})
  end.

(** One [if destination_type == "<kind>": ... = Model.from_dict(raw)]. *)
Definition retype_if (destination_type : json) (kind : string)
    (from_dict : json -> result configuration) (raw_configuration : json)
    (dr : option DestinationResponse) : result (option DestinationResponse) :=
  if py_eq_str destination_type kind then
    value ← from_dict raw_configuration;
    set_configuration dr value
  else Ok dr.

Definition get_destination (destination_id api_root api_key : string)
  : result (option DestinationResponse) :=
  let response := destinations_get_destination api_key api_root destination_id in
  if status_ok (gd_status_code response) then
    raw_response ← json_loads (raw_response_text response);
    raw_configuration ← py_getitem raw_response "configuration";
    destination_type ← py_get raw_response "destinationType";
    dr ← retype_if destination_type "snowflake" DestinationSnowflake_from_dict
           raw_configuration (destination_response response);
    dr ← retype_if destination_type "bigquery" DestinationBigquery_from_dict
           raw_configuration dr;
    dr ← retype_if destination_type "postgres" DestinationPostgres_from_dict
           raw_configuration dr;
    dr ← retype_if destination_type "duckdb" DestinationDuckdb_from_dict
           raw_configuration dr;
    Ok dr
  else Raise AirbyteMissingResourceError.

End Destinations.

(** ** Legacy API: [check_connector_config] *)

Definition _transform_legacy_api_root (api_root : string) : result string :=
  if String.eqb api_root CLOUD_API_ROOT then Ok LEGACY_API_ROOT
  else Raise NotImplementedError.

Record http_request : Type := {
  url : string;
  headers : list (string * string);
  json_body : list (string * string);
}.

(** A [requests.Response]: its status code and what [.json()] gives. *)
Record http_response : Type := {
  http_status : Z;
  response_json : result json;
}.

(** [Response.raise_for_status]: HTTPError on 4xx and 5xx. *)
Definition raise_for_status (response : http_response) : result unit :=
  if (400 <=? http_status response) && (http_status response <? 600)
  then Raise HTTPError else Ok tt.

(** The arguments of [requests.post]. [connector_type] is
    [connector_type.value] of the enum member. *)
Definition check_connection_request
    (legacy_api_root connector_type connector_id api_key : string) : http_request :=
  {| url := legacy_api_root ++ "/" ++ connector_type ++ "s/check_connection";
     headers := [("accept", "application/json");
                 ("content-type", "application/json");
                 ("Authorization", "Bearer " ++ api_key)];
     json_body := [(connector_type ++ "Id", connector_id)] |}.

Section Legacy.

Variable requests_post : http_request -> http_response.

(** The result, and the HTTP requests sent on the way, in order. *)
Definition check_connector_config
    (connector_id connector_type workspace_id api_key api_root : string)
  : result unit * list http_request :=
  match _transform_legacy_api_root api_root with
  | Raise e => (Raise e, [])
  | Ok legacy_api_root =>
    let request :=
      check_connection_request legacy_api_root connector_type connector_id api_key in
    let response := requests_post request in
    (_ ← raise_for_status response;
     response_json ← response_json response;
     status ← py_get response_json "status";
     if negb (py_eq_str status "succeeded")
     then Raise AirbyteConnectorCheckFailedError
     else Ok tt,
     [request])
  end.

End Legacy.

End ApiUtil.

(** * airbyte/caches/bigquery.py *)

Module BigQuery.

Record BigQueryCacheConfig : Type := {
  project : string;
  credentials_path : string;
  schema_name : string;
}.

(** ** [BigQueryConverter]

    The classes of [sqlalchemy.types] as a single-inheritance tree: the two
    classes [to_sql_type] tests for, any other class by its name, and a
    subclass of any of them. *)
Inductive sa_class : Type :=
| SA_VARCHAR
| SA_BIGINT
| SA_Other (class_name : string)
| SA_Subclass (base : sa_class) (class_name : string).

(** [isinstance(sql_type, sqlalchemy.types.VARCHAR)] for an instance of
    class [c]. *)
Fixpoint isinstance_VARCHAR (c : sa_class) : bool :=
  match c with
  | SA_VARCHAR => true
  | SA_Subclass base _ => isinstance_VARCHAR base
  | _ => false
  end.

Fixpoint isinstance_BIGINT (c : sa_class) : bool :=
  match c with
  | SA_BIGINT => true
  | SA_Subclass base _ => isinstance_BIGINT base
  | _ => false
  end.

(** [sql_type.__class__.__name__] *)
Definition class_name_of (c : sa_class) : string :=
  match c with
  | SA_VARCHAR => "VARCHAR"
  | SA_BIGINT => "BIGINT"
  | SA_Other n => n
  | SA_Subclass _ n => n
  end.

Section Converter.

Variable json_schema_property_def : Type.

(** [SQLTypeConverter.to_sql_type], the generic conversion of the parent
    class; it yields an instance of some sqlalchemy type class. *)
Variable super_to_sql_type : json_schema_property_def -> result sa_class.

Definition to_sql_type (d : json_schema_property_def) : result string :=
  sql_type ← super_to_sql_type d;
  if isinstance_VARCHAR sql_type then Ok "String"
  else if isinstance_BIGINT sql_type then Ok "INT64"
  else Ok (class_name_of sql_type).

End Converter.

(** ** Strings: [str.startswith] and [str.replace(old, new, 1)] *)

Fixpoint drop_chars (n : nat) (s : string) : string :=
  match n, s with
  | O, _ => s
  | S n', String _ s' => drop_chars n' s'
  | S _, EmptyString => EmptyString
  end.

(** Replace the first occurrence of a non-empty [old] in [s]. *)
Fixpoint replace_first (old new s : string) : string :=
  if String.prefix old s then new ++ drop_chars (String.length old) s
  else match s with
       | EmptyString => EmptyString
       | String c s' => String c (replace_first old new s')
       end.

(** ** The warehouse

    A table is addressed by its project and its dataset-qualified name
    ["dataset.table"]; it holds the data frames appended to it, oldest
    first. *)

Section Processor.

Variable column : Type.
Variable credentials : Type.

Definition DataFrame : Type := list (string * column).

Definition warehouse : Type := gmap (string * string) (list DataFrame).

(** Vendor code: reading a Parquet file into a data frame
    ([ParquetFile(file_path).read().to_pandas()]), loading the service
    account file, and [pd.to_datetime] on a column. *)
Variable read_parquet : string -> result DataFrame.
Variable from_service_account_file : string -> result credentials.
Variable pd_to_datetime : column -> result column.

(** [_create_table_for_loading(stream_name, batch_id)] of the SQL processor
    base class, which is not part of this source tree: it acts on the
    warehouse and returns the name of the staging table. *)
Variable _create_table_for_loading :
  BigQueryCacheConfig -> string -> string -> warehouse -> string * warehouse.

(** [dataframe[key]] *)
Fixpoint df_getitem (dataframe : DataFrame) (key : string) : result column :=
  match dataframe with
  | [] => Raise KeyError
  | (k, c) :: rest => if String.eqb k key then Ok c else df_getitem rest key
  end.

(** [dataframe[key] = value]: an existing column is replaced where it is,
    a new one is added last. *)
Fixpoint df_setitem (dataframe : DataFrame) (key : string) (value : column) : DataFrame :=
  match dataframe with
  | [] => [(key, value)]
  | (k, c) :: rest =>
    if String.eqb k key then (k, value) :: rest
    else (k, c) :: df_setitem rest key value
  end.

(** [_fully_qualified], without the surrounding backquotes: the key of the
    table in the warehouse. *)
Definition qualified (schema table_name : string) : string :=
  schema ++ "." ++ table_name.

Definition _fully_qualified (config : BigQueryCacheConfig) (table_name : string) : string :=
  "`" ++ qualified (schema_name config) table_name ++ "`".

(** [inspector.get_table_names(schema=...)] over the connection of
    [get_sql_alchemy_url], that is in the project of the configuration: for
    BigQuery the names come back as ["schema.table"]. *)
Definition inspector_get_table_names (config : BigQueryCacheConfig)
    (w : warehouse) (schema : string) : list string :=
  omap (fun entry : (string * string) * list DataFrame =>
          let '((proj, qname), _) := entry in
          if String.eqb proj (project config) && String.prefix (schema ++ ".") qname
          then Some qname else None)
       (map_to_list w).

Definition _get_tables_list (config : BigQueryCacheConfig) (w : warehouse) : list string :=
  let tables := inspector_get_table_names config w (schema_name config) in
  let schema_prefix := schema_name config ++ "." in
  map (fun table =>
         if String.prefix schema_prefix table
         then replace_first schema_prefix "" table
         else table)
      tables.

(** Modelled from the spec: [_table_exists] of the SQL processor base
    class, which is not part of this source tree: the table is among those
    that [_get_tables_list] returns. *)
Definition _table_exists (config : BigQueryCacheConfig) (w : warehouse)
    (table_name : string) : bool :=
  existsb (String.eqb table_name) (_get_tables_list config w).

(** [pandas_gbq.to_gbq(..., if_exists="append")]: the frame is appended to
    the destination table, which is created when it does not exist. *)
Definition to_gbq (dataframe : DataFrame) (destination_table project_id : string)
    (w : warehouse) : warehouse :=
  let key := (project_id, destination_table) in
  <[key := (default [] (w !! key) ++ [dataframe])%list]> w.

(** The two timestamp columns are converted in place. *)
Definition convert_timestamps (dataframe : DataFrame) : result DataFrame :=
  created ← df_getitem dataframe "created_at";
  created ← pd_to_datetime created;
  let dataframe := df_setitem dataframe "created_at" created in
  updated ← df_getitem dataframe "updated_at";
  updated ← pd_to_datetime updated;
  Ok (df_setitem dataframe "updated_at" updated).

(** The body of [for file_path in files]. *)
Definition load_file (config : BigQueryCacheConfig) (temp_table_name file_path : string)
    (w : warehouse) : result unit * warehouse :=
  match read_parquet file_path with
  | Raise e => (Raise e, w)
  | Ok dataframe =>
    if negb (_table_exists config w temp_table_name)
    then (Raise AirbyteLibInternalError, w)
    else
      match from_service_account_file (credentials_path config) with
      | Raise e => (Raise e, w)
      | Ok _ =>
        match convert_timestamps dataframe with
        | Raise e => (Raise e, w)
        | Ok dataframe =>
          (Ok tt,
           to_gbq dataframe ("airbyte_raw." ++ temp_table_name)
                  "dataline-integration-testing" w)
        end
      end
  end.

Fixpoint load_files (config : BigQueryCacheConfig) (temp_table_name : string)
    (files : list string) (w : warehouse) : result unit * warehouse :=
  match files with
  | [] => (Ok tt, w)
  | file_path :: rest =>
    match load_file config temp_table_name file_path w with
    | (Ok _, w') => load_files config temp_table_name rest w'
    | (Raise e, w') => (Raise e, w')
    end
  end.

Definition _write_files_to_new_table (config : BigQueryCacheConfig)
    (files : list string) (stream_name batch_id : string) (w : warehouse)
  : result string * warehouse :=
  let '(temp_table_name, w) := _create_table_for_loading config stream_name batch_id w in
  match load_files config temp_table_name files w with
  | (Ok _, w') => (Ok temp_table_name, w')
  | (Raise e, w') => (Raise e, w')
  end.

End Processor.

(** Modelled from the spec: [_create_table_for_loading] of the SQL processor
    base class, which is not part of this source tree.  It creates the
    staging table of the batch (idempotently) and returns its name, made
    from the stream name and the batch id; the table is the one
    [_fully_qualified] names, in the dataset [schema_name] of the
    configured project. *)
Definition create_staging_table {column : Type}
    (get_temp_table_name : string -> string -> string)
    (config : BigQueryCacheConfig) (stream_name batch_id : string)
    (w : warehouse column) : string * warehouse column :=
  let temp_table_name := get_temp_table_name stream_name batch_id in
  let key := (project config, qualified (schema_name config) temp_table_name) in
  (temp_table_name,
   match w !! key with
   | Some _ => w
   | None => <[key := []]> w
   end).

End BigQuery.

(** * airbyte/_processors/file/jsonl.py *)

Module Jsonl.

Definition default_cache_file_suffix : string := ".jsonl.gz".
Definition prune_extra_fields : bool := true.

Definition newline : Byte.byte := Byte.x0a.

(** A file opened with [gzip.open(file_path, "w")]: [written] is the
    uncompressed stream written so far, which is what reading the file back
    through gzip gives. *)
Record GzipFile : Type := {
  gz_path : string;
  written : list Byte.byte;
}.

Definition _open_new_file (file_path : string) : GzipFile :=
  {| gz_path := file_path; written := [] |}.

(** [open_file_writer.write(data)] *)
Definition gz_write (f : GzipFile) (bytes : list Byte.byte) : GzipFile :=
  {| gz_path := gz_path f; written := (written f ++ bytes)%list |}.

Section Writer.

Variable StreamRecord : Type.

(** [orjson.dumps]; it raises on a value it cannot serialize. *)
Variable orjson_dumps : StreamRecord -> result (list Byte.byte).

Definition _write_record_dict (record_dict : StreamRecord)
    (open_file_writer : GzipFile) : result unit * GzipFile :=
  match orjson_dumps record_dict with
  | Raise e => (Raise e, open_file_writer)
  | Ok serialized => (Ok tt, gz_write open_file_writer (serialized ++ [newline])%list)
  end.

(** The records of a batch written one after the other to the same open
    file, stopping at the first exception. *)
Fixpoint write_records (records : list StreamRecord) (open_file_writer : GzipFile)
  : result unit * GzipFile :=
  match records with
  | [] => (Ok tt, open_file_writer)
  | record_dict :: rest =>
    match _write_record_dict record_dict open_file_writer with
    | (Ok _, f) => write_records rest f
    | (Raise e, f) => (Raise e, f)
    end
  end.

End Writer.

(** The lines of a byte stream, each without its terminating newline; bytes
    after the last newline are not a line. *)
Fixpoint lines_from (current : list Byte.byte) (bytes : list Byte.byte)
  : list (list Byte.byte) :=
  match bytes with
  | [] => []
  | b :: rest =>
    if Byte.eqb b newline then rev current :: lines_from [] rest
    else lines_from (b :: current) rest
  end.

Definition lines (bytes : list Byte.byte) : list (list Byte.byte) :=
  lines_from [] bytes.

End Jsonl.

(** * airbyte/strategies.py *)

Module Strategies.

(** Modelled from the spec: the enumeration [WriteStrategy] of
    [airbyte/strategies.py], which is not part of this source tree
    ([airbyte/_writers/base.py] only imports the name).  The glossary gives
    the policies: append-only, full replace, upsert-by-key. *)
Inductive WriteStrategy : Type :=
| APPEND
| REPLACE
| MERGE.

Definition all_write_strategies : list WriteStrategy := [APPEND; REPLACE; MERGE].

End Strategies.

(** * airbyte/_util/api_util.py, continued: jobs, creation, deletion *)

Module ApiUtilCrud.
Import ApiUtil.

Inductive JobTypeEnum : Type :=
| SYNC
| RESET.

Record JobCreateRequest : Type := {
  jc_connection_id : string;
  jc_job_type : JobTypeEnum;
}.

Record ListJobsRequest : Type := {
  lj_workspace_ids : list string;
  lj_connection_id : string;
  lj_limit : Z;
}.

Record StreamConfiguration : Type := { sc_name : string }.

Record StreamConfigurations : Type := { streams : list StreamConfiguration }.

Record ConnectionCreateRequest : Type := {
  cc_name : string;
  cc_source_id : string;
  cc_destination_id : string;
  cc_configurations : option StreamConfigurations;
  cc_prefix : string;
}.

Section Crud.

Variable payload : Type.

(** The [config] dictionaries handed to the creation requests. *)
Variable config : Type.

Record SourceCreateRequest : Type := {
  sr_name : string;
  sr_workspace_id : string;
  sr_configuration : config;
  sr_definition_id : option string;
  sr_secret_id : option string;
}.

Record DestinationCreateRequest : Type := {
  dc_name : string;
  dc_workspace_id : string;
  dc_configuration : config;
}.

Record JobsResponse : Type := { jobs_data : list payload }.

Record ListJobsResponse : Type := {
  lj_status_code : Z;
  jobs_response : option JobsResponse;
}.

(** The endpoints of the client used by the functions of this part. *)
Record CrudAPI : Type := {
  jobs_create_job : JobCreateRequest -> sdk_response payload;
  jobs_list_jobs : ListJobsRequest -> ListJobsResponse;
  sources_create_source : SourceCreateRequest -> sdk_response payload;
  sources_delete_source : string -> sdk_response payload;
  destinations_create_destination : DestinationCreateRequest -> sdk_response payload;
  destinations_delete_destination : string -> sdk_response payload;
  connections_create_connection : ConnectionCreateRequest -> sdk_response payload;
  connections_delete_connection : string -> sdk_response payload;
}.

Variable get_airbyte_server_instance : string -> string -> CrudAPI.

Definition run_connection (workspace_id connection_id api_root api_key : string)
  : result payload :=
  let airbyte_instance := get_airbyte_server_instance api_key api_root in
  let response :=
    jobs_create_job airbyte_instance
      {| jc_connection_id := connection_id; jc_job_type := SYNC |} in
  if status_ok (status_code _ response) then
    v ← getattr _ response "job_response";
    match v with
    | Some job_response => Ok job_response
    | None => Raise AirbyteConnectionSyncError
    end
  else Raise AirbyteConnectionSyncError.

(** [limit] defaults to 20 at the call sites. *)
Definition get_job_logs (workspace_id connection_id : string) (lim : Z)
    (api_root api_key : string) : result (list payload) :=
  let airbyte_instance := get_airbyte_server_instance api_key api_root in
  let response :=
    jobs_list_jobs airbyte_instance
      {| lj_workspace_ids := [workspace_id]; lj_connection_id := connection_id;
         lj_limit := lim |} in
  match status_ok (lj_status_code response), jobs_response response with
  | true, Some jobs => Ok (jobs_data jobs)
  | _, _ => Raise AirbyteMissingResourceError
  end.

Definition create_source (nm workspace_id : string) (cfg : config)
    (api_root api_key : string) : result payload :=
  let airbyte_instance := get_airbyte_server_instance api_key api_root in
  let response :=
    sources_create_source airbyte_instance
      {| sr_name := nm; sr_workspace_id := workspace_id; sr_configuration := cfg;
         sr_definition_id := None; sr_secret_id := None |} in
  if status_ok (status_code _ response) then
    v ← getattr _ response "source_response";
    match v with
    | Some source_response => Ok source_response
    | None => Raise AirbyteError
    end
  else Raise AirbyteError.

Definition delete_source (source_id api_root api_key : string)
    (workspace_id : option string) : result unit :=
  let airbyte_instance := get_airbyte_server_instance api_key api_root in
  let response := sources_delete_source airbyte_instance source_id in
  if negb (status_ok (status_code _ response)) then Raise AirbyteError else Ok tt.

Definition create_destination (nm workspace_id : string) (cfg : config)
    (api_root api_key : string) : result payload :=
  let airbyte_instance := get_airbyte_server_instance api_key api_root in
  let response :=
    destinations_create_destination airbyte_instance
      {| dc_name := nm; dc_workspace_id := workspace_id; dc_configuration := cfg |} in
  if status_ok (status_code _ response) then
    v ← getattr _ response "destination_response";
    match v with
    | Some destination_response => Ok destination_response
    | None => Raise AirbyteError
    end
  else Raise AirbyteError.

Definition delete_destination (destination_id api_root api_key : string)
    (workspace_id : option string) : result unit :=
  let airbyte_instance := get_airbyte_server_instance api_key api_root in
  let response := destinations_delete_destination airbyte_instance destination_id in
  if negb (status_ok (status_code _ response)) then Raise AirbyteError else Ok tt.

(** [if selected_stream_names:] is false for [None] and for the empty
    list; otherwise one [StreamConfiguration] per name, in order. *)
Definition stream_configurations_of (selected_stream_names : option (list string))
  : option StreamConfigurations :=
  match selected_stream_names with
  | None | Some [] => None
  | Some names =>
    Some {| streams := map (fun stream_name => {| sc_name := stream_name |}) names |}
  end.

(** The request object [create_connection] sends. *)
Definition connection_create_request (nm source_id destination_id prefix : string)
    (selected_stream_names : option (list string)) : ConnectionCreateRequest :=
  {| cc_name := nm; cc_source_id := source_id; cc_destination_id := destination_id;
     cc_configurations := stream_configurations_of selected_stream_names;
     cc_prefix := prefix |}.

(** The payload attribute is returned as it is, [None] included. *)
Definition create_connection (nm source_id destination_id api_root api_key : string)
    (workspace_id : option string) (prefix : string)
    (selected_stream_names : option (list string)) : result (option payload) :=
  let airbyte_instance := get_airbyte_server_instance api_key api_root in
  let response :=
    connections_create_connection airbyte_instance
      (connection_create_request nm source_id destination_id prefix
         selected_stream_names) in
  if negb (status_ok (status_code _ response)) then Raise AirbyteError
  else getattr _ response "connection_response".

Definition delete_connection (connection_id api_root workspace_id api_key : string)
  : result unit :=
  let airbyte_instance := get_airbyte_server_instance api_key api_root in
  let response := connections_delete_connection airbyte_instance connection_id in
  if negb (status_ok (status_code _ response)) then Raise AirbyteError else Ok tt.

End Crud.

End ApiUtilCrud.

(** * examples/run_perf_test_reads_2.py *)

Module PerfTest.

(** [a or b] for an optional integer [a]: [None] and [0] are falsy. *)
Definition int_or (a : option Z) (b : Z) : Z :=
  match a with
  | Some v => if v =? 0 then b else v
  | None => b
  end.

(** [num_records = n or 5 * (10 ** (e or 3))] in [main].  The right operand
    is evaluated only when [n] is falsy; with a negative exponent [**]
    gives a float, for which the result is [None] here. *)
Definition scaled (e : option Z) : option Z :=
  let exponent := int_or e 3 in
  if exponent <? 0 then None else Some (5 * 10 ^ exponent).

Definition num_records (e n : option Z) : option Z :=
  match n with
  | Some v => if v =? 0 then scaled e else Some v
  | None => scaled e
  end.

End PerfTest.

(** * docs/generate.py *)

Module Docs.

(** The loop over [os.listdir("airbyte")] in [run]: the paths collected in
    [public_modules], in listing order. *)
Fixpoint public_modules (listing : list string) : list string :=
  match listing with
  | [] => []
  | submodule :: rest =>
    let submodule_path := "airbyte/" ++ submodule in
    if negb (String.prefix "_" submodule)
    then submodule_path :: public_modules rest
    else public_modules rest
  end.

End Docs.

(** * Properties *)

(** ** Write strategies *)

Module StrategiesFacts.
Import Strategies.

(** C5: the write strategies are exactly the three policies append,
    replace and merge (upsert by primary key): every strategy is one of
    them, and the three are distinct. *)
Theorem write_strategy_exactly_three :
  (forall s : WriteStrategy, s = APPEND \/ s = REPLACE \/ s = MERGE)
  /\ (forall s : WriteStrategy, In s all_write_strategies)
  /\ List.NoDup all_write_strategies
  /\ length all_write_strategies = 3%nat.
Proof.
  split; [intros []; auto |].
  split; [intros []; simpl; auto |].
  split; [| reflexivity].
  unfold all_write_strategies.
  repeat constructor; simpl; intuition discriminate.
Qed.

End StrategiesFacts.

(** ** BigQuery type conversion *)

Module ConverterFacts.
Import BigQuery.

Lemma varchar_is_not_bigint (c : sa_class) :
  isinstance_VARCHAR c = true -> isinstance_BIGINT c = false.
Proof. induction c; simpl; auto; discriminate. Qed.

Lemma bigint_is_not_varchar (c : sa_class) :
  isinstance_BIGINT c = true -> isinstance_VARCHAR c = false.
Proof. induction c; simpl; auto; discriminate. Qed.

(** C3: when the generic conversion of a property definition yields the
    type [t], [BigQueryConverter.to_sql_type] returns "String" if [t] is a
    VARCHAR, "INT64" if [t] is a BIGINT, and the name of [t]'s class in
    every other case. *)
Theorem to_sql_type_cases (D : Type) (generic : D -> result sa_class)
    (d : D) (t : sa_class) :
  generic d = Ok t ->
  (isinstance_VARCHAR t = true -> to_sql_type D generic d = Ok "String")
  /\ (isinstance_BIGINT t = true -> to_sql_type D generic d = Ok "INT64")
  /\ (isinstance_VARCHAR t = false -> isinstance_BIGINT t = false ->
      to_sql_type D generic d = Ok (class_name_of t)).
Proof.
  intros Hgen. unfold to_sql_type. rewrite Hgen. simpl.
  split; [intros ->; reflexivity |].
  split.
  - intros Hb. rewrite (bigint_is_not_varchar _ Hb), Hb. reflexivity.
  - intros -> ->. reflexivity.
Qed.

Lemma to_sql_type_cases_witness :
  to_sql_type unit (fun _ => Ok (SA_Subclass SA_BIGINT "BigInteger")) tt = Ok "INT64".
Proof.
  apply (to_sql_type_cases unit (fun _ => Ok (SA_Subclass SA_BIGINT "BigInteger")) tt
           (SA_Subclass SA_BIGINT "BigInteger") eq_refl).
  reflexivity.
Defined.

(** The failure of the generic conversion is passed on. *)
Lemma to_sql_type_raises (D : Type) (generic : D -> result sa_class) (d : D) e :
  generic d = Raise e -> to_sql_type D generic d = Raise e.
Proof. intros H. unfold to_sql_type. rewrite H. reflexivity. Qed.

End ConverterFacts.

(** ** The legacy check endpoint *)

Module LegacyFacts.
Import ApiUtil.

Lemma transform_cloud : _transform_legacy_api_root CLOUD_API_ROOT = Ok LEGACY_API_ROOT.
Proof. reflexivity. Qed.

Lemma transform_other api_root :
  api_root <> CLOUD_API_ROOT ->
  _transform_legacy_api_root api_root = Raise NotImplementedError.
Proof.
  intros Hne. unfold _transform_legacy_api_root.
  destruct (String.eqb_spec api_root CLOUD_API_ROOT); [contradiction | reflexivity].
Qed.

(** C10: for an API root other than the Cloud API root,
    [check_connector_config] raises NotImplementedError and sends no HTTP
    request.  For the Cloud API root it sends one request to the legacy
    root; when that call succeeds (no HTTP error status, a JSON object as
    body) it returns None exactly when the member "status" of the body is
    the string "succeeded", and raises AirbyteConnectorCheckFailedError for
    every other or missing value. *)
Theorem check_connector_config_spec
    (post : http_request -> http_response)
    (connector_id connector_type workspace_id api_key api_root : string) :
  let run :=
    check_connector_config post connector_id connector_type workspace_id
      api_key api_root in
  let request :=
    check_connection_request LEGACY_API_ROOT connector_type connector_id api_key in
  (api_root <> CLOUD_API_ROOT -> run = (Raise NotImplementedError, []))
  /\ (api_root = CLOUD_API_ROOT ->
      snd run = [request]
      /\ forall body,
          raise_for_status (post request) = Ok tt ->
          response_json (post request) = Ok (JObj body) ->
          (fst run = Ok tt <-> dict_lookup "status" body = Some (JStr "succeeded"))
          /\ (dict_lookup "status" body <> Some (JStr "succeeded") ->
              fst run = Raise AirbyteConnectorCheckFailedError)).
Proof.
  intros run request. subst run request. split.
  - intros Hne. unfold check_connector_config.
    rewrite (transform_other _ Hne). reflexivity.
  - intros ->. unfold check_connector_config. rewrite transform_cloud.
    cbn [fst snd]. split; [reflexivity |].
    intros body Hst Hjs. rewrite Hst, Hjs. cbn [mbind result_bind py_get].
    destruct (dict_lookup "status" body) as [v|] eqn:Hv; cbn.
    + destruct (py_eq_str v "succeeded") eqn:Heq; cbn.
      * apply py_eq_str_true in Heq. subst v. split; [tauto | congruence].
      * split; [| reflexivity]. split; [discriminate |].
        intros [= ->]. simpl in Heq. discriminate.
    + split; [| reflexivity]. split; discriminate.
Qed.

Definition succeeding_check (_ : http_request) : http_response :=
  {| http_status := 200; response_json := Ok (JObj [("status", JStr "succeeded")]) |}.

Lemma check_connector_config_spec_witness :
  fst (check_connector_config succeeding_check "18efe99a" "source" "ws" "key"
         CLOUD_API_ROOT) = Ok tt.
Proof.
  destruct (check_connector_config_spec succeeding_check "18efe99a" "source" "ws"
              "key" CLOUD_API_ROOT) as [_ H].
  destruct (H eq_refl) as [_ Hbody].
  destruct (Hbody [("status", JStr "succeeded")] eq_refl eq_refl) as [Hiff _].
  apply Hiff. reflexivity.
Defined.

End LegacyFacts.

(** ** Resource getters *)

Module GetterFacts.
Import ApiUtil.

Section Getters.

Context {payload : Type}.
Variable server : string -> string -> AirbyteAPI payload.

Ltac getter_cases :=
  intros Hattr;
  match goal with
  | |- context [status_ok ?c] => destruct (status_ok c) eqn:Hstatus
  end;
  unfold getattr; rewrite ?Hattr; simpl;
  [ match goal with
    | v : option payload |- _ => destruct v as [p'|]; simpl
    end;
    [ split; [split; [intros [= ->]; auto | intros [_ [= ->]]; reflexivity]
             | intros H; exfalso; apply H; split; [reflexivity | discriminate]]
    | split; [split; [discriminate | intros [_ H]; discriminate H]
             | reflexivity] ]
  | split; [split; [discriminate | intros [H _]; discriminate H] | reflexivity] ].

(** X1: [get_workspace] on a response that carries the attribute
    [workspace_response]: the payload is returned exactly when the status
    is OK and the attribute is not None; AirbyteMissingResourceError is
    raised otherwise. *)
Lemma get_workspace_spec workspace_id api_root api_key v p :
  let response := workspaces_get_workspace _ (server api_key api_root) workspace_id in
  attributes _ response !! "workspace_response" = Some v ->
  (get_workspace payload server workspace_id api_root api_key = Ok p
   <-> status_ok (status_code _ response) = true /\ v = Some p)
  /\ (~ (status_ok (status_code _ response) = true /\ v <> None) ->
      get_workspace payload server workspace_id api_root api_key
      = Raise AirbyteMissingResourceError).
Proof. intros response. subst response. unfold get_workspace. getter_cases. Qed.



(** [get_source] never looks at [source_response]: on a response with an
    OK status whose class has no attribute [connection_response] it raises
    AttributeError, whatever the source payload is. *)
Lemma get_source_without_connection_response source_id api_root api_key :
  let response := sources_get_source _ (server api_key api_root) source_id in
  status_ok (status_code _ response) = true ->
  attributes _ response !! "connection_response" = None ->
  get_source payload server source_id api_root api_key = Raise AttributeError.
Proof.
  intros response Hok Hattr. subst response. unfold get_source, getattr.
  rewrite Hok, Hattr. reflexivity.
Qed.

(** With a [connection_response] that is None, the source is reported
    missing although the response carries it. *)
Lemma get_source_empty_connection_response source_id api_root api_key :
  let response := sources_get_source _ (server api_key api_root) source_id in
  attributes _ response !! "connection_response" = Some None ->
  get_source payload server source_id api_root api_key
  = Raise AirbyteMissingResourceError.
Proof.
  intros response Hattr. subst response. unfold get_source, getattr.
  rewrite Hattr. destruct (status_ok _); reflexivity.
Qed.

End Getters.

(** A server whose [GetSourceResponse] has status 200 and the source
    payload [7] in [source_response], the payload attribute of that class. *)
Definition source_server (_ _ : string) : AirbyteAPI nat :=
  let found (attr : string) (_ : string) : sdk_response nat :=
    {| status_code := 200; attributes := {[ attr := Some 7%nat ]} |} in
  {| workspaces_get_workspace := found "workspace_response";
     connections_get_connection := found "connection_response";
     connections_list_connections := fun _ =>
       {| lc_status_code := 200; connections_response := Some {| data := [] |} |};
     jobs_get_job := found "job_response";
     sources_get_source := found "source_response" |}.

(** C6, at a source the API returns with status 200: [get_source] does not
    return the source payload, it raises AttributeError; the three other
    getters return their payload on the same server. *)
Theorem get_source_reads_the_wrong_attribute :
  get_source nat source_server "src-1" CLOUD_API_ROOT "key" = Raise AttributeError
  /\ get_workspace nat source_server "ws-1" CLOUD_API_ROOT "key" = Ok 7%nat
  /\ get_connection nat source_server "ws-1" "conn-1" CLOUD_API_ROOT "key" = Ok 7%nat
  /\ get_job_info nat source_server "job-1" CLOUD_API_ROOT "key" = Ok 7%nat.
Proof. repeat split; vm_compute; reflexivity. Qed.

End GetterFacts.

(** ** Listing connections *)

Module ListingFacts.
Import ApiUtil.

(** The request [list_connections] sends for the page at [off]. *)
Definition page_request (workspace_id : string) (off : Z) : ListConnectionsRequest :=
  {| workspace_ids := [workspace_id]; include_deleted := false;
     limit := 50; offset := off |}.

(** The response is OK and carries the page. *)
Definition ok_page (r : ListConnectionsResponse) (page : list ConnectionResponse) : Prop :=
  status_ok (lc_status_code r) = true
  /\ exists cr, connections_response r = Some cr /\ data cr = page.

(** What a filter that does not raise keeps. *)
Definition keeps (cell : name_filter_value) (c : ConnectionResponse) : bool :=
  match cell with
  | NFCallable f => f (name c)
  | _ => true
  end.

Definition total_filter (cell : name_filter_value) : Prop :=
  cell = NFNone \/ exists f, cell = NFCallable f.

Lemma yield_matching_total cell connections :
  total_filter cell ->
  yield_matching cell connections = (List.filter (keeps cell) connections, None).
Proof.
  intros Hcell. induction connections as [|c rest IH]; [reflexivity |].
  destruct Hcell as [-> | [f ->]]; simpl in *; rewrite IH.
  - reflexivity.
  - destruct (f (name c)); reflexivity.
Qed.

(** The nested filter raises on the first connection it is asked about. *)
Lemma yield_matching_nested c rest :
  yield_matching NFNested (c :: rest) = ([], Some TypeError).
Proof. reflexivity. Qed.

Section Server.

Context {payload : Type}.
Variable server : string -> string -> AirbyteAPI payload.

(** The server answers the requests at [off], [off + 50], ... with the
    non-empty [pages], and the request after them with an empty page. *)
Fixpoint serves_pages (inst : AirbyteAPI payload) (workspace_id : string) (off : Z)
    (pages : list (list ConnectionResponse)) : Prop :=
  match pages with
  | [] => ok_page (connections_list_connections _ inst (page_request workspace_id off)) []
  | page :: rest =>
    page <> []
    /\ ok_page (connections_list_connections _ inst (page_request workspace_id off)) page
    /\ serves_pages inst workspace_id (off + 50) rest
  end.

Lemma list_connections_loop_step fuel inst workspace_id cell lim off :
  list_connections_loop payload (S fuel) inst workspace_id cell lim off
  = let response :=
      connections_list_connections _ inst
        {| workspace_ids := [workspace_id]; include_deleted := false;
           limit := lim; offset := off |} in
    match status_ok (lc_status_code response), connections_response response with
    | true, Some cr =>
      match data cr with
      | [] => ([], StopIteration)
      | connections =>
        match yield_matching cell connections with
        | (ys, Some e) => (ys, GenRaise e)
        | (ys, None) =>
          let '(zs, stop) :=
            list_connections_loop payload fuel inst workspace_id cell lim (off + lim) in
          ((ys ++ zs)%list, stop)
        end
      end
    | _, _ => ([], GenRaise AirbyteError)
    end.
Proof. reflexivity. Qed.

Lemma list_connections_loop_pages inst workspace_id cell pages :
  total_filter cell ->
  forall off fuel,
    serves_pages inst workspace_id off pages ->
    (length pages < fuel)%nat ->
    list_connections_loop payload fuel inst workspace_id cell 50 off
    = (List.filter (keeps cell) (concat pages), StopIteration).
Proof.
  intros Hcell. induction pages as [|page rest IH]; intros off fuel Hserv Hfuel.
  - destruct fuel as [|fuel]; [simpl in Hfuel; lia |].
    destruct Hserv as [Hok [cr [Hcr Hdata]]].
    rewrite list_connections_loop_step. fold (page_request workspace_id off).
    cbv zeta. rewrite Hok, Hcr, Hdata. reflexivity.
  - destruct fuel as [|fuel]; [simpl in Hfuel; lia |].
    destruct Hserv as [Hne [[Hok [cr [Hcr Hdata]]] Hrest]].
    destruct page as [|c page']; [contradiction |].
    rewrite list_connections_loop_step. fold (page_request workspace_id off).
    cbv zeta. rewrite Hok, Hcr, Hdata. cbv beta iota.
    rewrite (yield_matching_total cell (c :: page') Hcell).
    rewrite (IH (off + 50) fuel Hrest) by (simpl in Hfuel; lia).
    rewrite concat_cons, List.filter_app. reflexivity.
Qed.

(** Without a filter, or with a predicate, the generator yields the
    connections of all pages that the predicate accepts, in order, and then
    stops. *)
Lemma list_connections_total fuel workspace_id name_filter api_root api_key pages :
  total_filter name_filter ->
  serves_pages (server api_key api_root) workspace_id 0 pages ->
  (length pages < fuel)%nat ->
  list_connections payload server fuel workspace_id name_filter api_root api_key
  = (List.filter (keeps name_filter) (concat pages), StopIteration).
Proof.
  intros Hcell Hserv Hfuel. unfold list_connections.
  replace (rebind_name_filter name_filter) with name_filter
    by (destruct Hcell as [-> | [f ->]]; reflexivity).
  apply list_connections_loop_pages; assumption.
Qed.

Lemma filter_keeps_none (l : list ConnectionResponse) :
  List.filter (keeps NFNone) l = l.
Proof. induction l as [|c l IH]; simpl; [| rewrite IH]; reflexivity. Qed.

(** With a string as [name_filter], the generator raises TypeError before
    it yields anything, as soon as the first page has a connection. *)
Lemma list_connections_string_filter
    fuel workspace_id s api_root api_key page rest :
  serves_pages (server api_key api_root) workspace_id 0 (page :: rest) ->
  list_connections payload server (S fuel) workspace_id (NFStr s) api_root api_key
  = ([], GenRaise TypeError).
Proof.
  intros [Hne [[Hok [cr [Hcr Hdata]]] _]]. unfold list_connections. simpl.
  fold (page_request workspace_id 0). rewrite Hok, Hcr, Hdata.
  destruct page as [|c page']; [contradiction | reflexivity].
Qed.

(** C8: when the workspace's connections are listed (some pages, then an
    empty one), [get_connection_by_name] returns the connection with the
    given name if exactly one listed connection has it, raises
    AirbyteMissingResourceError if none has it, and
    AirbyteMultipleResourcesError if several have it. *)
Theorem get_connection_by_name_spec
    fuel workspace_id connection_name api_root api_key pages :
  serves_pages (server api_key api_root) workspace_id 0 pages ->
  (length pages < fuel)%nat ->
  let found :=
    List.filter (fun c => String.eqb (name c) connection_name) (concat pages) in
  let outcome :=
    get_connection_by_name payload server fuel workspace_id connection_name
      api_root api_key in
  (found = [] -> outcome = Some (Raise AirbyteMissingResourceError))
  /\ (forall c, found = [c] -> outcome = Some (Ok c))
  /\ ((1 < length found)%nat -> outcome = Some (Raise AirbyteMultipleResourcesError)).
Proof.
  intros Hserv Hfuel found outcome. subst outcome. unfold get_connection_by_name.
  rewrite (list_connections_total fuel workspace_id NFNone api_root api_key pages)
    by (auto; left; reflexivity).
  rewrite filter_keeps_none. fold found.
  repeat split.
  - intros ->. reflexivity.
  - intros c ->. reflexivity.
  - intros Hlen. destruct found as [|c1 [|c2 found']]; simpl in Hlen; try lia.
    reflexivity.
Qed.

End Server.

(** A workspace with two pages of connections. *)
Definition conn (id nm : string) : ConnectionResponse :=
  {| connection_id := id; name := nm; source_id := "s"; destination_id := "d" |}.

Definition paged_server (_ _ : string) : AirbyteAPI unit :=
  let none (_ : string) : sdk_response unit :=
    {| status_code := 404; attributes := ∅ |} in
  {| workspaces_get_workspace := none;
     connections_get_connection := none;
     connections_list_connections := fun request =>
       {| lc_status_code := 200;
          connections_response :=
            Some {| data :=
                      if offset request =? 0
                      then [conn "c1" "prod-sync"; conn "c2" "staging-sync"]
                      else if offset request =? 50 then [conn "c3" "nightly"]
                      else [] |} |};
     jobs_get_job := none;
     sources_get_source := none |}.

Lemma paged_server_serves :
  serves_pages (paged_server "key" CLOUD_API_ROOT) "ws" 0
    [[conn "c1" "prod-sync"; conn "c2" "staging-sync"]; [conn "c3" "nightly"]].
Proof.
  simpl. unfold ok_page. simpl.
  repeat split; try discriminate; eexists; split; reflexivity.
Qed.

Lemma get_connection_by_name_spec_witness :
  get_connection_by_name unit paged_server 3 "ws" "nightly" CLOUD_API_ROOT "key"
  = Some (Ok (conn "c3" "nightly")).
Proof.
  apply (get_connection_by_name_spec paged_server 3 "ws" "nightly" CLOUD_API_ROOT
           "key" _ paged_server_serves); [simpl; lia | reflexivity].
Defined.

(** C9, on that workspace with the filter "sync": the generator raises
    TypeError and yields nothing, where the two connections whose names
    contain "sync" are expected; without a filter every connection is
    yielded. *)
Theorem list_connections_string_filter_raises :
  list_connections unit paged_server 3 "ws" (NFStr "sync") CLOUD_API_ROOT "key"
  = ([], GenRaise TypeError)
  /\ List.filter (fun c => is_substring "sync" (name c))
       [conn "c1" "prod-sync"; conn "c2" "staging-sync"; conn "c3" "nightly"]
     = [conn "c1" "prod-sync"; conn "c2" "staging-sync"]
  /\ list_connections unit paged_server 3 "ws" NFNone CLOUD_API_ROOT "key"
     = ([conn "c1" "prod-sync"; conn "c2" "staging-sync"; conn "c3" "nightly"],
        StopIteration).
Proof. repeat split; vm_compute; reflexivity. Qed.

End ListingFacts.

(** ** Destinations *)

Module DestinationFacts.
Import ApiUtil.

Section Destination.

Context {configuration : Type}.
Variable json_loads : string -> result json.
Variables snowflake bigquery postgres duckdb : json -> result configuration.
Variable server : string -> string -> string -> GetDestinationResponse configuration.

Local Abbreviation get_destination' :=
  (get_destination configuration json_loads snowflake bigquery postgres duckdb server).

(** The typed models and the destination types they belong to. *)
Definition typed_models : list (string * (json -> result configuration)) :=
  [("snowflake", snowflake); ("bigquery", bigquery);
   ("postgres", postgres); ("duckdb", duckdb)].

Lemma retype_if_other destination_type kind from_dict raw dr :
  py_eq_str destination_type kind = false ->
  retype_if configuration destination_type kind from_dict raw dr = Ok dr.
Proof. intros H. unfold retype_if. rewrite H. reflexivity. Qed.

Lemma retype_if_same kind from_dict raw d typed :
  from_dict raw = Ok typed ->
  retype_if configuration (JStr kind) kind from_dict raw (Some d)
  = set_configuration configuration (Some d) typed.
Proof.
  intros H. unfold retype_if. simpl. rewrite String.eqb_refl, H. reflexivity.
Qed.

(** C7: on an OK status, with a raw response that decodes to a JSON
    object with a member "configuration": for each of the destination
    types snowflake, bigquery, postgres and duckdb the destination
    response is returned with its configuration replaced by the typed
    model built from the raw configuration and every other attribute as
    it was; for every other destination type the destination response is
    returned as it was. *)
Theorem get_destination_frame
    destination_id api_root api_key members raw_configuration :
  let response := server api_key api_root destination_id in
  let destination_type := default JNull (dict_lookup "destinationType" members) in
  status_ok (gd_status_code _ response) = true ->
  json_loads (raw_response_text _ response) = Ok (JObj members) ->
  dict_lookup "configuration" members = Some raw_configuration ->
  (forall kind from_dict d typed,
      In (kind, from_dict) typed_models ->
      destination_type = JStr kind ->
      destination_response _ response = Some d ->
      from_dict raw_configuration = Ok typed ->
      exists d',
        get_destination' destination_id api_root api_key = Ok (Some d')
        /\ dr_configuration _ d' = typed
        /\ dr_destination_id _ d' = dr_destination_id _ d
        /\ dr_name _ d' = dr_name _ d
        /\ dr_destination_type _ d' = dr_destination_type _ d
        /\ dr_workspace_id _ d' = dr_workspace_id _ d)
  /\ ((forall kind from_dict,
          In (kind, from_dict) typed_models -> destination_type <> JStr kind) ->
      get_destination' destination_id api_root api_key
      = Ok (destination_response _ response)).
Proof.
  intros response destination_type Hok Hloads Hconf.
  assert (Hget : py_get (JObj members) "destinationType" = Ok destination_type).
  { subst destination_type. simpl.
    destruct (dict_lookup "destinationType" members); reflexivity. }
  split.
  - intros kind from_dict d typed Hin Hkind Hd Htyped.
    unfold get_destination. fold response.
    rewrite Hok, Hloads. cbn [mbind result_bind py_getitem]. rewrite Hconf.
    rewrite Hget, Hkind, Hd. cbn [mbind result_bind].
    simpl in Hin.
    destruct Hin as [[= <- <-] | [[= <- <-] | [[= <- <-] | [[= <- <-] | []]]]];
      repeat (first
        [ rewrite (retype_if_same _ _ _ _ _ Htyped);
          cbn [set_configuration mbind result_bind]
        | rewrite retype_if_other by reflexivity; cbn [mbind result_bind] ]);
      eexists; (split; [reflexivity |]); simpl; repeat split.
  - intros Hother. unfold get_destination. fold response.
    rewrite Hok, Hloads. cbn [mbind result_bind py_getitem]. rewrite Hconf, Hget.
    cbn [mbind result_bind].
    assert (Hne : forall kind from_dict,
               In (kind, from_dict) typed_models ->
               py_eq_str destination_type kind = false).
    { intros kind from_dict Hin.
      destruct (py_eq_str destination_type kind) eqn:Heq; [| reflexivity].
      apply py_eq_str_true in Heq. exfalso. exact (Hother _ _ Hin Heq). }
    rewrite (retype_if_other _ "snowflake" snowflake)
      by (apply (Hne _ snowflake); simpl; auto).
    cbn [mbind result_bind].
    rewrite (retype_if_other _ "bigquery" bigquery)
      by (apply (Hne _ bigquery); simpl; auto).
    cbn [mbind result_bind].
    rewrite (retype_if_other _ "postgres" postgres)
      by (apply (Hne _ postgres); simpl; auto).
    cbn [mbind result_bind].
    rewrite (retype_if_other _ "duckdb" duckdb)
      by (apply (Hne _ duckdb); simpl; auto).
    cbn [mbind result_bind].
    reflexivity.
Qed.

(** The members of the raw response are read before the destination type
    is looked at: without "configuration" the call raises KeyError. *)
Lemma get_destination_without_configuration
    destination_id api_root api_key members :
  let response := server api_key api_root destination_id in
  status_ok (gd_status_code _ response) = true ->
  json_loads (raw_response_text _ response) = Ok (JObj members) ->
  dict_lookup "configuration" members = None ->
  get_destination' destination_id api_root api_key = Raise KeyError.
Proof.
  intros response Hok Hloads Hconf. unfold get_destination. fold response.
  rewrite Hok, Hloads. cbn [mbind result_bind py_getitem]. rewrite Hconf.
  reflexivity.
Qed.

Lemma get_destination_not_ok destination_id api_root api_key :
  status_ok (gd_status_code _ (server api_key api_root destination_id)) = false ->
  get_destination' destination_id api_root api_key = Raise AirbyteMissingResourceError.
Proof. intros H. unfold get_destination. rewrite H. reflexivity. Qed.

End Destination.

(** A duckdb destination; the typed models are tagged copies of the raw
    configuration. *)
Definition duckdb_raw : list (string * json) :=
  [("destinationId", JStr "d-1"); ("destinationType", JStr "duckdb");
   ("configuration", JObj [("destination_path", JStr "temp_db")])].

Definition duckdb_destination : DestinationResponse (string * json) :=
  {| dr_destination_id := "d-1"; dr_name := "cache"; dr_destination_type := "duckdb";
     dr_workspace_id := "ws"; dr_configuration := ("untyped", JNull) |}.

Definition duckdb_server (_ _ _ : string) : GetDestinationResponse (string * json) :=
  {| gd_status_code := 200; raw_response_text := "{...}";
     destination_response := Some duckdb_destination |}.

Lemma get_destination_frame_witness :
  exists d',
    get_destination (string * json) (fun _ => Ok (JObj duckdb_raw))
      (fun j => Ok ("DestinationSnowflake", j)) (fun j => Ok ("DestinationBigquery", j))
      (fun j => Ok ("DestinationPostgres", j)) (fun j => Ok ("DestinationDuckdb", j))
      duckdb_server "d-1" CLOUD_API_ROOT "key" = Ok (Some d')
    /\ dr_configuration _ d'
       = ("DestinationDuckdb", JObj [("destination_path", JStr "temp_db")])
    /\ dr_destination_id _ d' = "d-1"
    /\ dr_name _ d' = "cache"
    /\ dr_destination_type _ d' = "duckdb"
    /\ dr_workspace_id _ d' = "ws".
Proof.
  refine (proj1 (get_destination_frame (fun _ => Ok (JObj duckdb_raw))
            (fun j => Ok ("DestinationSnowflake", j))
            (fun j => Ok ("DestinationBigquery", j))
            (fun j => Ok ("DestinationPostgres", j))
            (fun j => Ok ("DestinationDuckdb", j))
            duckdb_server "d-1" CLOUD_API_ROOT "key" duckdb_raw
            (JObj [("destination_path", JStr "temp_db")])
            eq_refl eq_refl eq_refl)
          "duckdb" (fun j => Ok ("DestinationDuckdb", j)) duckdb_destination
          ("DestinationDuckdb", JObj [("destination_path", JStr "temp_db")])
          _ eq_refl eq_refl eq_refl).
  simpl. auto.
Defined.

End DestinationFacts.

(** ** The JSONL writer *)

Module JsonlFacts.
Import Jsonl.

(** The stream made of the given lines, each closed by a newline. *)
Definition jsonl_stream (serialized : list (list Byte.byte)) : list Byte.byte :=
  concat (map (fun line => line ++ [newline])%list serialized).

Lemma lines_from_line current line rest :
  ~ In newline line ->
  lines_from current (line ++ newline :: rest)%list
  = (rev current ++ line)%list :: lines_from [] rest.
Proof.
  revert current. induction line as [|b line IH]; intros current Hnot.
  - simpl. rewrite List.app_nil_r. reflexivity.
  - simpl. destruct (Byte.eqb b newline) eqn:Hb.
    + exfalso. apply Hnot. left. symmetry. apply Byte.byte_dec_bl. exact Hb.
    + rewrite IH by (intros Hin; apply Hnot; right; exact Hin).
      simpl. rewrite <- List.app_assoc. reflexivity.
Qed.

Lemma lines_jsonl_stream serialized :
  List.Forall (fun line => ~ In newline line) serialized ->
  lines (jsonl_stream serialized) = serialized.
Proof.
  unfold lines, jsonl_stream.
  induction 1 as [|line rest Hline _ IH]; [reflexivity |].
  simpl. rewrite <- List.app_assoc. simpl.
  rewrite lines_from_line by exact Hline. simpl. rewrite IH. reflexivity.
Qed.

Section Writer.

Context {StreamRecord : Type}.
Variable dumps : StreamRecord -> result (list Byte.byte).

Lemma write_record_appends record_dict f serialized :
  dumps record_dict = Ok serialized ->
  _write_record_dict StreamRecord dumps record_dict f
  = (Ok tt, gz_write f (serialized ++ [newline])%list).
Proof. intros H. unfold _write_record_dict. rewrite H. reflexivity. Qed.

(** A record that cannot be serialized leaves the file as it was. *)
Lemma write_record_raises record_dict f e :
  dumps record_dict = Raise e ->
  _write_record_dict StreamRecord dumps record_dict f = (Raise e, f).
Proof. intros H. unfold _write_record_dict. rewrite H. reflexivity. Qed.

Lemma write_records_appends records serialized :
  List.Forall2 (fun r line => dumps r = Ok line) records serialized ->
  forall f,
    exists f',
      write_records StreamRecord dumps records f = (Ok tt, f')
      /\ gz_path f' = gz_path f
      /\ written f' = (written f ++ jsonl_stream serialized)%list.
Proof.
  induction 1 as [|r line records serialized Hr _ IH]; intros f.
  - exists f. simpl. rewrite List.app_nil_r. auto.
  - simpl. rewrite (write_record_appends r f line Hr).
    destruct (IH (gz_write f (line ++ [newline])%list)) as [f' [Hw [Hp Hb]]].
    exists f'. split; [exact Hw |]. split; [exact Hp |].
    rewrite Hb. unfold jsonl_stream. simpl. rewrite <- !List.app_assoc. reflexivity.
Qed.

(** C4: [_write_record_dict] appends to the open file exactly the
    serialization of the record followed by one newline byte; hence the
    records of a batch written to a new file give a stream with one line
    per record, in write order (the serializations holding no newline),
    the file being a gzip file with the suffix ".jsonl.gz". *)
Theorem jsonl_one_line_per_record :
  (forall record_dict f serialized,
      dumps record_dict = Ok serialized ->
      exists f',
        _write_record_dict StreamRecord dumps record_dict f = (Ok tt, f')
        /\ gz_path f' = gz_path f
        /\ written f' = (written f ++ serialized ++ [newline])%list)
  /\ (forall file_path records serialized,
        List.Forall2 (fun r line => dumps r = Ok line) records serialized ->
        List.Forall (fun line => ~ In newline line) serialized ->
        exists f',
          write_records StreamRecord dumps records (_open_new_file file_path)
          = (Ok tt, f')
          /\ written f' = jsonl_stream serialized
          /\ lines (written f') = serialized
          /\ length (lines (written f')) = length records)
  /\ default_cache_file_suffix = ".jsonl.gz"%string.
Proof.
  split; [| split; [| reflexivity]].
  - intros r f line Hr. eexists. rewrite (write_record_appends r f line Hr).
    split; [reflexivity |]. split; reflexivity.
  - intros file_path records serialized Hall Hnl.
    destruct (write_records_appends records serialized Hall (_open_new_file file_path))
      as [f' [Hw [_ Hb]]].
    simpl in Hb. exists f'. split; [exact Hw |]. rewrite Hb.
    split; [reflexivity |]. rewrite (lines_jsonl_stream serialized Hnl).
    split; [reflexivity |]. symmetry. exact (List.Forall2_length Hall).
Qed.

End Writer.

(** A serializer for records that are numbers below ten, and one batch. *)
Definition digit_dumps (n : nat) : result (list Byte.byte) :=
  match n with
  | 0%nat => Ok [Byte.x30]
  | 1%nat => Ok [Byte.x31]
  | 2%nat => Ok [Byte.x32]
  | _ => Raise TypeError
  end.

Lemma jsonl_one_line_per_record_witness :
  exists f',
    write_records nat digit_dumps [2; 0; 1]%nat (_open_new_file "batch.jsonl.gz")
    = (Ok tt, f')
    /\ written f' = jsonl_stream [[Byte.x32]; [Byte.x30]; [Byte.x31]]
    /\ lines (written f') = [[Byte.x32]; [Byte.x30]; [Byte.x31]]
    /\ length (lines (written f')) = 3%nat.
Proof.
  apply (proj1 (proj2 (jsonl_one_line_per_record digit_dumps))
           "batch.jsonl.gz" [2; 0; 1]%nat [[Byte.x32]; [Byte.x30]; [Byte.x31]]).
  - repeat constructor.
  - repeat constructor; simpl; intros [H | []]; discriminate H.
Defined.

End JsonlFacts.

(** ** The BigQuery processor *)

Module ProcessorFacts.
Import BigQuery.

Section Processor.

Context {column credentials : Type}.
Variable read_parquet : string -> result (DataFrame column).
Variable from_service_account_file : string -> result credentials.
Variable pd_to_datetime : column -> result column.
Variable create :
  BigQueryCacheConfig -> string -> string -> warehouse column -> string * warehouse column.

Local Abbreviation load_file' :=
  (load_file column credentials read_parquet from_service_account_file pd_to_datetime).
Local Abbreviation load_files' :=
  (load_files column credentials read_parquet from_service_account_file pd_to_datetime).
Local Abbreviation write_files' :=
  (_write_files_to_new_table column credentials read_parquet
     from_service_account_file pd_to_datetime create).

Lemma load_file_missing_table config temp_table_name file_path w dataframe :
  read_parquet file_path = Ok dataframe ->
  _table_exists column config w temp_table_name = false ->
  load_file' config temp_table_name file_path w = (Raise AirbyteLibInternalError, w).
Proof. intros Hread Hmissing. unfold load_file. rewrite Hread, Hmissing. reflexivity. Qed.

(** C2: when the staging table does not exist at the moment a file that
    has been read is about to be loaded, AirbyteLibInternalError is raised
    and the warehouse is left as it was: the file's records are not loaded
    and no table is created by the load.  This holds at any iteration of
    the loop, and so for [_write_files_to_new_table] when the table is
    missing after its creation step. *)
Theorem missing_staging_table_raises config file_path rest dataframe :
  read_parquet file_path = Ok dataframe ->
  (forall temp_table_name w,
      _table_exists column config w temp_table_name = false ->
      load_files' config temp_table_name (file_path :: rest) w
      = (Raise AirbyteLibInternalError, w))
  /\ (forall stream_name batch_id w,
        let created := create config stream_name batch_id w in
        _table_exists column config (snd created) (fst created) = false ->
        write_files' config (file_path :: rest) stream_name batch_id w
        = (Raise AirbyteLibInternalError, snd created)).
Proof.
  intros Hread. split.
  - intros temp_table_name w Hmissing. simpl.
    rewrite (load_file_missing_table _ _ _ _ _ Hread Hmissing). reflexivity.
  - intros stream_name batch_id w created Hmissing. subst created.
    unfold _write_files_to_new_table.
    destruct (create config stream_name batch_id w) as [temp_table_name w1].
    simpl in Hmissing. simpl.
    rewrite (load_file_missing_table _ _ _ _ _ Hread Hmissing). reflexivity.
Qed.

End Processor.

(** *** Strings *)

Lemma append_cons a (p s : string) : String a p ++ s = String a (p ++ s).
Proof. reflexivity. Qed.

Lemma append_empty (s : string) : "" ++ s = s.
Proof. reflexivity. Qed.

Lemma prefix_split p q :
  String.prefix p q = true -> q = p ++ drop_chars (String.length p) q.
Proof.
  revert q. induction p as [|a p IH]; intros q H; [reflexivity |].
  destruct q as [|b q]; cbn [String.prefix] in H; [discriminate |].
  destruct (Ascii.ascii_dec a b) as [-> | Hne]; [| discriminate].
  rewrite append_cons. cbn [String.length drop_chars]. f_equal. apply IH. exact H.
Qed.

Lemma prefix_append p s : String.prefix p (p ++ s) = true.
Proof.
  induction p as [|a p IH]; [rewrite append_empty; destruct s; reflexivity |].
  rewrite append_cons. cbn [String.prefix].
  destruct (Ascii.ascii_dec a a); [exact IH | contradiction].
Qed.

Lemma drop_chars_append p s : drop_chars (String.length p) (p ++ s) = s.
Proof.
  induction p as [|a p IH]; [rewrite append_empty; reflexivity |].
  rewrite append_cons. cbn [String.length drop_chars]. exact IH.
Qed.

Lemma replace_first_prefix p q :
  String.prefix p q = true ->
  replace_first p "" q = drop_chars (String.length p) q.
Proof.
  intros H. destruct q; cbn [replace_first]; rewrite H; apply append_empty.
Qed.

Lemma append_assoc (a b c : string) : (a ++ b) ++ c = a ++ b ++ c.
Proof.
  induction a as [|x a IH]; [reflexivity |].
  rewrite !append_cons, IH. reflexivity.
Qed.

(** *** The staging table and the inspector *)

Section Conforming.

Context {column credentials : Type}.
Variable read_parquet : string -> result (DataFrame column).
Variable from_service_account_file : string -> result credentials.
Variable pd_to_datetime : column -> result column.
Variable get_temp_table_name : string -> string -> string.

(** The key of the staging table in the warehouse. *)
Definition staging_key (config : BigQueryCacheConfig) (table_name : string)
  : string * string :=
  (project config, qualified (schema_name config) table_name).

(** [_table_exists] says whether the configured dataset of the configured
    project has the table. *)
Lemma table_exists_lookup config (w : warehouse column) table_name :
  _table_exists column config w table_name = true
  <-> is_Some (w !! staging_key config table_name).
Proof.
  unfold _table_exists, _get_tables_list, inspector_get_table_names, staging_key.
  unfold warehouse in *. rewrite existsb_exists. split.
  - intros [x [Hin Heq]]. apply String.eqb_eq in Heq. subst x.
    apply in_map_iff in Hin. destruct Hin as [qname [Hstrip Hin]].
    apply list_elem_of_In, list_elem_of_omap in Hin.
    destruct Hin as [[[proj q] rows] [Hentry Hsome]].
    apply elem_of_map_to_list in Hentry.
    destruct (String.eqb proj (project config)) eqn:Hproj; simpl in Hsome;
      [| discriminate].
    destruct (String.prefix (schema_name config ++ ".") q) eqn:Hpre;
      [| discriminate].
    injection Hsome as ->. apply String.eqb_eq in Hproj. subst proj.
    rewrite Hpre in Hstrip. rewrite (replace_first_prefix _ _ Hpre) in Hstrip.
    apply prefix_split in Hpre. rewrite Hstrip in Hpre.
    unfold qualified. rewrite <- append_assoc, <- Hpre. eauto.
  - intros [rows Hrows]. exists table_name. split; [| apply String.eqb_refl].
    apply in_map_iff. exists (qualified (schema_name config) table_name).
    unfold qualified. rewrite <- append_assoc.
    rewrite prefix_append, (replace_first_prefix _ _ (prefix_append _ _)).
    rewrite drop_chars_append. split; [reflexivity |].
    apply list_elem_of_In, list_elem_of_omap.
    exists (project config, (schema_name config ++ ".") ++ table_name, rows).
    split.
    + apply elem_of_map_to_list. rewrite append_assoc. exact Hrows.
    + cbn beta iota. rewrite String.eqb_refl, prefix_append. reflexivity.
Qed.

(** The files can be read and their timestamp columns converted; [frames]
    are the converted frames. *)
Definition loadable (files : list string) (frames : list (DataFrame column)) : Prop :=
  List.Forall2
    (fun file_path frame =>
       exists raw,
         read_parquet file_path = Ok raw
         /\ convert_timestamps column pd_to_datetime raw = Ok frame)
    files frames.

Lemma load_files_conforming config temp_table_name files frames :
  project config = "dataline-integration-testing" ->
  schema_name config = "airbyte_raw" ->
  (exists c, from_service_account_file (credentials_path config) = Ok c) ->
  loadable files frames ->
  forall (w : warehouse column) rows,
    w !! staging_key config temp_table_name = Some rows ->
    load_files column credentials read_parquet from_service_account_file
      pd_to_datetime config temp_table_name files w
    = (Ok tt, <[staging_key config temp_table_name := (rows ++ frames)%list]> w).
Proof.
  intros Hproj Hschema [c Hc] Hfiles.
  induction Hfiles as [|file_path frame files frames [raw [Hread Hconv]] _ IH];
    intros w rows Hrows; unfold warehouse in *.
  - simpl. rewrite List.app_nil_r, insert_id by exact Hrows. reflexivity.
  - simpl. unfold load_file. rewrite Hread.
    assert (Hex : _table_exists column config w temp_table_name = true)
      by (apply table_exists_lookup; eauto).
    rewrite Hex, Hc, Hconv. cbn [negb].
    assert (Hkey : ("dataline-integration-testing", "airbyte_raw." ++ temp_table_name)
                   = staging_key config temp_table_name)
      by (unfold staging_key, qualified; rewrite Hproj, Hschema; reflexivity).
    unfold to_gbq, warehouse. rewrite Hkey, Hrows. cbn [default].
    rewrite (IH _ (rows ++ [frame])%list) by apply lookup_insert_eq.
    rewrite insert_insert_eq, <- List.app_assoc. reflexivity.
Qed.

(** When the cache is configured for the dataset and the project that the
    load names, [_write_files_to_new_table] does what is expected of it:
    the staging table exists before the first load, the frames of the
    files are appended to it in list order, and its name is returned. *)
Lemma write_files_conforming config files frames stream_name batch_id
    (w : warehouse column) :
  project config = "dataline-integration-testing" ->
  schema_name config = "airbyte_raw" ->
  (exists c, from_service_account_file (credentials_path config) = Ok c) ->
  loadable files frames ->
  let temp_table_name := get_temp_table_name stream_name batch_id in
  let key := staging_key config temp_table_name in
  is_Some (snd (create_staging_table get_temp_table_name config stream_name batch_id w)
           !! key)
  /\ _write_files_to_new_table column credentials read_parquet
       from_service_account_file pd_to_datetime
       (create_staging_table get_temp_table_name)
       config files stream_name batch_id w
     = (Ok temp_table_name, <[key := (default [] (w !! key) ++ frames)%list]> w).
Proof.
  intros Hproj Hschema Hc Hfiles temp_table_name key.
  unfold _write_files_to_new_table, create_staging_table.
  fold temp_table_name. fold (staging_key config temp_table_name). fold key.
  unfold warehouse in *. cbn [snd].
  destruct (w !! key) as [rows|] eqn:Hrows.
  - split; [rewrite Hrows; eauto |].
    rewrite (load_files_conforming config temp_table_name files frames
               Hproj Hschema Hc Hfiles w rows Hrows).
    reflexivity.
  - split; [rewrite lookup_insert_eq; eauto |].
    rewrite (load_files_conforming config temp_table_name files frames
               Hproj Hschema Hc Hfiles
               (<[key := ([] : list (DataFrame column))]> w) [])
      by (unfold warehouse; fold key; rewrite lookup_insert_eq; reflexivity).
    unfold warehouse. fold key. rewrite insert_insert_eq. reflexivity.
Qed.

(** A file without a column "created_at" is not loaded: KeyError. *)
Lemma load_file_without_created_at config temp_table_name file_path raw c
    (w : warehouse column) :
  read_parquet file_path = Ok raw ->
  _table_exists column config w temp_table_name = true ->
  from_service_account_file (credentials_path config) = Ok c ->
  df_getitem column raw "created_at" = Raise KeyError ->
  load_file column credentials read_parquet from_service_account_file
    pd_to_datetime config temp_table_name file_path w
  = (Raise KeyError, w).
Proof.
  intros Hread Hex Hc Hcol. unfold load_file, convert_timestamps.
  rewrite Hread, Hex, Hc, Hcol. reflexivity.
Qed.

End Conforming.

(** A batch of the faker source, and a cache configured for the dataset
    "analytics" of the project "my-project". *)
Definition faker_frame : DataFrame string :=
  [("id", "1"); ("created_at", "2024-01-01"); ("updated_at", "2024-01-02")].

Definition analytics_config : BigQueryCacheConfig :=
  {| project := "my-project"; credentials_path := "/keys/sa.json";
     schema_name := "analytics" |}.

Definition stream_batch_name (stream_name batch_id : string) : string :=
  stream_name ++ "_" ++ batch_id.

Lemma missing_staging_table_raises_witness :
  load_files string unit (fun _ => Ok faker_frame) (fun _ => Ok tt) Ok
    analytics_config "users_b1" ["users_b1.parquet"; "users_b2.parquet"] ∅
  = (Raise AirbyteLibInternalError, ∅).
Proof.
  apply (proj1 (missing_staging_table_raises (credentials := unit)
                  (fun _ => Ok faker_frame) (fun _ => Ok tt) Ok
                  (create_staging_table stream_batch_name)
                  analytics_config "users_b1.parquet" ["users_b2.parquet"]
                  faker_frame eq_refl)).
  reflexivity.
Defined.

Definition analytics_run : result string * warehouse string :=
  _write_files_to_new_table string unit (fun _ => Ok faker_frame) (fun _ => Ok tt) Ok
    (create_staging_table stream_batch_name)
    analytics_config ["users_b1.parquet"] "users" "b1" ∅.

(** C1, for a cache whose dataset is not "airbyte_raw": the staging table
    "analytics.users_b1" is created in the configured project and stays
    empty; the records of the file go to the table "airbyte_raw.users_b1"
    of the project "dataline-integration-testing", which the load
    creates. *)
Theorem load_misses_the_staging_table :
  fst analytics_run = Ok "users_b1"
  /\ snd analytics_run !! ("my-project", "analytics.users_b1") = Some []
  /\ snd analytics_run !! ("dataline-integration-testing", "airbyte_raw.users_b1")
     = Some [faker_frame]
  /\ (∅ : warehouse string) !! ("dataline-integration-testing", "airbyte_raw.users_b1")
     = None.
Proof. repeat split; vm_compute; reflexivity. Qed.

End ProcessorFacts.

(** * Further properties *)

(** ** The getters that read their own payload attribute *)

Module GetterWitnesses.
Import ApiUtil GetterFacts.

Lemma get_workspace_spec_witness :
  get_workspace nat source_server "ws-1" CLOUD_API_ROOT "key" = Ok 7%nat.
Proof.
  apply (proj1 (get_workspace_spec source_server "ws-1" CLOUD_API_ROOT "key"
                  (Some 7%nat) 7%nat eq_refl)).
  split; reflexivity.
Defined.



End GetterWitnesses.

(** ** Jobs, creation and deletion *)

Module CrudFacts.
Import ApiUtil ApiUtilCrud.

Section Crud.

Context {payload config : Type}.
Variable server : string -> string -> CrudAPI payload config.

(** X4: [run_connection] creates a SYNC job for the connection; the job is
    returned exactly when the status is OK and [job_response] is not None,
    and every other answer raises AirbyteConnectionSyncError. *)
Theorem run_connection_spec workspace_id connection_id api_root api_key v p :
  let response :=
    jobs_create_job _ _ (server api_key api_root)
      {| jc_connection_id := connection_id; jc_job_type := SYNC |} in
  attributes _ response !! "job_response" = Some v ->
  (run_connection payload config server workspace_id connection_id api_root api_key
   = Ok p
   <-> status_ok (status_code _ response) = true /\ v = Some p)
  /\ (~ (status_ok (status_code _ response) = true /\ v <> None) ->
      run_connection payload config server workspace_id connection_id api_root api_key
      = Raise AirbyteConnectionSyncError).
Proof.
  intros response Hattr. subst response. unfold run_connection, getattr.
  destruct (status_ok _) eqn:Hok; rewrite ?Hattr; simpl.
  - destruct v as [p'|]; simpl; split.
    + split; [intros [= ->]; auto | intros [_ [= ->]]; reflexivity].
    + intros H. exfalso. apply H. split; [reflexivity | discriminate].
    + split; [discriminate | intros [_ H]; discriminate H].
    + reflexivity.
  - split; [| reflexivity]. split; [discriminate | intros [H _]; discriminate H].
Qed.

(** X5: [get_job_logs] returns the listed jobs, an empty list included, when
    the status is OK and the response carries a jobs payload; it raises
    AirbyteMissingResourceError in every other case. *)
Theorem get_job_logs_spec workspace_id connection_id lim api_root api_key :
  let response :=
    jobs_list_jobs _ _ (server api_key api_root)
      {| lj_workspace_ids := [workspace_id]; lj_connection_id := connection_id;
         lj_limit := lim |} in
  let outcome :=
    get_job_logs payload config server workspace_id connection_id lim api_root api_key in
  (forall jobs,
      status_ok (lj_status_code _ response) = true ->
      jobs_response _ response = Some jobs ->
      outcome = Ok (jobs_data _ jobs))
  /\ (status_ok (lj_status_code _ response) = false \/ jobs_response _ response = None ->
      outcome = Raise AirbyteMissingResourceError).
Proof.
  intros response outcome. subst response outcome. unfold get_job_logs. split.
  - intros jobs -> ->. reflexivity.
  - intros [-> | ->]; [reflexivity |]. destruct (status_ok _); reflexivity.
Qed.

(** X6: [create_source] and [create_destination] return the created resource
    when the status is OK and the payload attribute is not None, and raise
    AirbyteError otherwise; the source request carries neither a
    definition id nor a secret id. *)
Theorem create_resource_spec nm workspace_id cfg api_root api_key :
  let source_request :=
    {| sr_name := nm; sr_workspace_id := workspace_id; sr_configuration := cfg;
       sr_definition_id := None; sr_secret_id := None |} in
  let destination_request :=
    {| dc_name := nm; dc_workspace_id := workspace_id; dc_configuration := cfg |} in
  let created := sources_create_source _ _ (server api_key api_root) source_request in
  let created' :=
    destinations_create_destination _ _ (server api_key api_root) destination_request in
  (forall v,
      attributes _ created !! "source_response" = Some v ->
      create_source payload config server nm workspace_id cfg api_root api_key
      = match status_ok (status_code _ created), v with
        | true, Some p => Ok p
        | _, _ => Raise AirbyteError
        end)
  /\ (forall v,
        attributes _ created' !! "destination_response" = Some v ->
        create_destination payload config server nm workspace_id cfg api_root api_key
        = match status_ok (status_code _ created'), v with
          | true, Some p => Ok p
          | _, _ => Raise AirbyteError
          end).
Proof.
  intros source_request destination_request created created'.
  subst created created' source_request destination_request.
  split; intros v Hattr; unfold create_source, create_destination, getattr;
    destruct (status_ok _); rewrite ?Hattr; simpl; try reflexivity;
    destruct v; reflexivity.
Qed.

(** X7: The three deletions succeed exactly when the status is OK and raise
    AirbyteError otherwise; nothing else of the response is looked at, and
    the workspace id plays no part. *)
Theorem delete_spec resource_id api_root api_key :
  (forall workspace_id,
      (delete_source payload config server resource_id api_root api_key workspace_id
       = Ok tt
       <-> status_ok (status_code _ (sources_delete_source _ _
                        (server api_key api_root) resource_id)) = true)
      /\ (delete_source payload config server resource_id api_root api_key workspace_id
          <> Ok tt ->
          delete_source payload config server resource_id api_root api_key workspace_id
          = Raise AirbyteError))
  /\ (forall workspace_id,
        (delete_destination payload config server resource_id api_root api_key
           workspace_id = Ok tt
         <-> status_ok (status_code _ (destinations_delete_destination _ _
                          (server api_key api_root) resource_id)) = true)
        /\ (delete_destination payload config server resource_id api_root api_key
              workspace_id <> Ok tt ->
            delete_destination payload config server resource_id api_root api_key
              workspace_id = Raise AirbyteError))
  /\ (forall workspace_id,
        (delete_connection payload config server resource_id api_root workspace_id
           api_key = Ok tt
         <-> status_ok (status_code _ (connections_delete_connection _ _
                          (server api_key api_root) resource_id)) = true)
        /\ (delete_connection payload config server resource_id api_root workspace_id
              api_key <> Ok tt ->
            delete_connection payload config server resource_id api_root workspace_id
              api_key = Raise AirbyteError)).
Proof.
  repeat split;
    unfold delete_source, delete_destination, delete_connection in *;
    destruct (status_ok _); simpl in *; congruence.
Qed.

(** X8: The stream selection of [create_connection]: an empty list of names is
    sent like no selection at all (no configurations); a non-empty list is
    sent as one stream configuration per name, in the same order. *)
Theorem stream_selection nm source_id destination_id prefix :
  connection_create_request nm source_id destination_id prefix (Some [])
  = connection_create_request nm source_id destination_id prefix None
  /\ cc_configurations
       (connection_create_request nm source_id destination_id prefix None) = None
  /\ forall names,
      names <> [] ->
      exists configurations,
        cc_configurations
          (connection_create_request nm source_id destination_id prefix (Some names))
        = Some configurations
        /\ map sc_name (streams configurations) = names.
Proof.
  split; [reflexivity |]. split; [reflexivity |].
  intros names Hne. destruct names as [|n names]; [contradiction |].
  clear Hne. eexists. split; [reflexivity |]. simpl. f_equal.
  induction names as [|m names IH]; simpl; [| rewrite IH]; reflexivity.
Qed.

(** X9: [create_connection] raises AirbyteError when the status is not OK;
    on an OK status it returns the connection payload as the response has
    it, and so returns None, without an error, when the payload is
    missing. *)
Theorem create_connection_spec
    nm source_id destination_id api_root api_key workspace_id prefix selected v :
  let response :=
    connections_create_connection _ _ (server api_key api_root)
      (connection_create_request nm source_id destination_id prefix selected) in
  let outcome :=
    create_connection payload config server nm source_id destination_id api_root
      api_key workspace_id prefix selected in
  attributes _ response !! "connection_response" = Some v ->
  (status_ok (status_code _ response) = true -> outcome = Ok v)
  /\ (status_ok (status_code _ response) = false -> outcome = Raise AirbyteError).
Proof.
  intros response outcome Hattr. subst response outcome.
  unfold create_connection, getattr.
  split; intros ->; simpl; [rewrite Hattr |]; reflexivity.
Qed.

End Crud.

(** A server that creates whatever is asked for and refuses deletions. *)
Definition crud_server (_ _ : string) : CrudAPI nat unit :=
  let answer (code : Z) (attr : string) (v : option nat) : sdk_response nat :=
    {| status_code := code; attributes := {[ attr := v ]} |} in
  {| jobs_create_job := fun _ => answer 200 "job_response" (Some 11%nat);
     jobs_list_jobs := fun _ =>
       {| lj_status_code := 200; jobs_response := Some {| jobs_data := [] |} |};
     sources_create_source := fun _ => answer 200 "source_response" (Some 12%nat);
     sources_delete_source := fun _ => answer 403 "none" None;
     destinations_create_destination := fun _ =>
       answer 200 "destination_response" (Some 13%nat);
     destinations_delete_destination := fun _ => answer 403 "none" None;
     connections_create_connection := fun _ => answer 201 "connection_response" None;
     connections_delete_connection := fun _ => answer 204 "none" None |}.

Lemma run_connection_spec_witness :
  run_connection nat unit crud_server "ws" "conn-1" CLOUD_API_ROOT "key" = Ok 11%nat.
Proof.
  apply (proj1 (run_connection_spec crud_server "ws" "conn-1" CLOUD_API_ROOT "key"
                  (Some 11%nat) 11%nat eq_refl)).
  split; reflexivity.
Defined.

Lemma get_job_logs_spec_witness :
  get_job_logs nat unit crud_server "ws" "conn-1" 20 CLOUD_API_ROOT "key" = Ok [].
Proof.
  exact (proj1 (get_job_logs_spec crud_server "ws" "conn-1" 20 CLOUD_API_ROOT "key")
           {| jobs_data := [] |} eq_refl eq_refl).
Defined.

Lemma create_resource_spec_witness :
  create_source nat unit crud_server "faker" "ws" tt CLOUD_API_ROOT "key" = Ok 12%nat.
Proof.
  exact (proj1 (create_resource_spec crud_server "faker" "ws" tt CLOUD_API_ROOT "key")
           (Some 12%nat) eq_refl).
Defined.

Lemma delete_spec_witness :
  delete_source nat unit crud_server "src-1" CLOUD_API_ROOT "key" None
  = Raise AirbyteError.
Proof.
  apply (proj1 (delete_spec crud_server "src-1" CLOUD_API_ROOT "key") None).
  discriminate.
Defined.

Lemma stream_selection_witness :
  exists configurations,
    cc_configurations
      (connection_create_request "c" "s" "d" "" (Some ["users"; "purchases"]))
    = Some configurations
    /\ map sc_name (streams configurations) = ["users"; "purchases"].
Proof.
  apply (proj2 (proj2 (stream_selection "c" "s" "d" "")) ["users"; "purchases"]).
  discriminate.
Defined.

Lemma create_connection_spec_witness :
  create_connection nat unit crud_server "c" "s" "d" CLOUD_API_ROOT "key" None ""
    (Some ["users"]) = Ok None.
Proof.
  apply (proj1 (create_connection_spec crud_server "c" "s" "d" CLOUD_API_ROOT "key"
                  None "" (Some ["users"]) None eq_refl)).
  reflexivity.
Defined.

End CrudFacts.

(** ** Listing connections: filters and failed pages *)

Module ListingMore.
Import ApiUtil ListingFacts.

(** A response [list_connections] gives up on. *)
Definition failed_page (r : ListConnectionsResponse) : Prop :=
  status_ok (lc_status_code r) = false \/ connections_response r = None.

Section Server.

Context {payload : Type}.
Variable server : string -> string -> AirbyteAPI payload.

(** The server answers with the non-empty [pages], then with a failure. *)
Fixpoint serves_then_fails (inst : AirbyteAPI payload) (workspace_id : string)
    (off : Z) (pages : list (list ConnectionResponse)) : Prop :=
  match pages with
  | [] => failed_page (connections_list_connections _ inst (page_request workspace_id off))
  | page :: rest =>
    page <> []
    /\ ok_page (connections_list_connections _ inst (page_request workspace_id off)) page
    /\ serves_then_fails inst workspace_id (off + 50) rest
  end.

Lemma list_connections_loop_fails inst workspace_id cell pages :
  total_filter cell ->
  forall off fuel,
    serves_then_fails inst workspace_id off pages ->
    (length pages < fuel)%nat ->
    list_connections_loop payload fuel inst workspace_id cell 50 off
    = (List.filter (keeps cell) (concat pages), GenRaise AirbyteError).
Proof.
  intros Hcell. induction pages as [|page rest IH]; intros off fuel Hserv Hfuel.
  - destruct fuel as [|fuel]; [simpl in Hfuel; lia |].
    rewrite list_connections_loop_step. fold (page_request workspace_id off).
    cbv zeta. destruct Hserv as [-> | ->]; [reflexivity |].
    destruct (status_ok _); reflexivity.
  - destruct fuel as [|fuel]; [simpl in Hfuel; lia |].
    destruct Hserv as [Hne [[Hok [cr [Hcr Hdata]]] Hrest]].
    destruct page as [|c page']; [contradiction |].
    rewrite list_connections_loop_step. fold (page_request workspace_id off).
    cbv zeta. rewrite Hok, Hcr, Hdata. cbv beta iota.
    rewrite (yield_matching_total cell (c :: page') Hcell).
    rewrite (IH (off + 50) fuel Hrest) by (simpl in Hfuel; lia).
    rewrite concat_cons, List.filter_app. reflexivity.
Qed.

(** X10: With no filter the generator yields every connection of every page, in
    page order; with a predicate it yields those whose name the predicate
    accepts, in the same order; then it stops. *)
Theorem list_connections_yields_accepted
    fuel workspace_id api_root api_key pages :
  serves_pages (server api_key api_root) workspace_id 0 pages ->
  (length pages < fuel)%nat ->
  list_connections payload server fuel workspace_id NFNone api_root api_key
  = (concat pages, StopIteration)
  /\ forall f,
      list_connections payload server fuel workspace_id (NFCallable f) api_root api_key
      = (List.filter (fun c => f (name c)) (concat pages), StopIteration).
Proof.
  intros Hserv Hfuel. split.
  - rewrite (list_connections_total server fuel workspace_id NFNone api_root api_key
               pages) by (auto; left; reflexivity).
    rewrite filter_keeps_none. reflexivity.
  - intros f.
    rewrite (list_connections_total server fuel workspace_id (NFCallable f) api_root
               api_key pages) by (auto; right; eauto).
    reflexivity.
Qed.

(** X11: When a page request fails (status not OK, or no payload), the
    generator raises AirbyteError after it has yielded the accepted
    connections of the pages before. *)
Theorem list_connections_failed_page
    fuel workspace_id name_filter api_root api_key pages :
  total_filter name_filter ->
  serves_then_fails (server api_key api_root) workspace_id 0 pages ->
  (length pages < fuel)%nat ->
  list_connections payload server fuel workspace_id name_filter api_root api_key
  = (List.filter (keeps name_filter) (concat pages), GenRaise AirbyteError).
Proof.
  intros Hcell Hserv Hfuel. unfold list_connections.
  replace (rebind_name_filter name_filter) with name_filter
    by (destruct Hcell as [-> | [f ->]]; reflexivity).
  apply list_connections_loop_fails; assumption.
Qed.

(** X12: With a string as filter: on a workspace without connections the
    generator stops without yielding; as soon as the first page holds a
    connection it raises TypeError and yields nothing, whatever the string
    and the names are. *)
Theorem list_connections_string_filter_cases
    fuel workspace_id s api_root api_key :
  (serves_pages (server api_key api_root) workspace_id 0 [] ->
   list_connections payload server (S fuel) workspace_id (NFStr s) api_root api_key
   = ([], StopIteration))
  /\ (forall page rest,
        serves_pages (server api_key api_root) workspace_id 0 (page :: rest) ->
        list_connections payload server (S fuel) workspace_id (NFStr s) api_root api_key
        = ([], GenRaise TypeError)).
Proof.
  split.
  - intros [Hok [cr [Hcr Hdata]]]. unfold list_connections.
    rewrite list_connections_loop_step. fold (page_request workspace_id 0).
    cbv zeta. rewrite Hok, Hcr, Hdata. reflexivity.
  - intros page rest Hserv.
    exact (list_connections_string_filter server fuel workspace_id s api_root api_key
             page rest Hserv).
Qed.

(** X13: [get_connection_by_name] raises AirbyteError, not
    AirbyteMissingResourceError, when a page of the listing fails, also
    when an earlier page holds the connection. *)
Theorem get_connection_by_name_listing_fails
    fuel workspace_id connection_name api_root api_key pages :
  serves_then_fails (server api_key api_root) workspace_id 0 pages ->
  (length pages < fuel)%nat ->
  get_connection_by_name payload server fuel workspace_id connection_name
    api_root api_key
  = Some (Raise AirbyteError).
Proof.
  intros Hserv Hfuel. unfold get_connection_by_name.
  rewrite (list_connections_failed_page fuel workspace_id NFNone api_root api_key pages)
    by (auto; left; reflexivity).
  reflexivity.
Qed.

End Server.

(** A workspace whose second page request is refused, and an empty one. *)
Definition flaky_server (_ _ : string) : AirbyteAPI unit :=
  let none (_ : string) : sdk_response unit :=
    {| status_code := 404; attributes := ∅ |} in
  {| workspaces_get_workspace := none;
     connections_get_connection := none;
     connections_list_connections := fun request =>
       if offset request =? 0
       then {| lc_status_code := 200;
               connections_response :=
                 Some {| data := [conn "c1" "prod-sync"; conn "c2" "nightly"] |} |}
       else {| lc_status_code := 502; connections_response := None |};
     jobs_get_job := none;
     sources_get_source := none |}.

Definition empty_server (_ _ : string) : AirbyteAPI unit :=
  let none (_ : string) : sdk_response unit :=
    {| status_code := 404; attributes := ∅ |} in
  {| workspaces_get_workspace := none;
     connections_get_connection := none;
     connections_list_connections := fun _ =>
       {| lc_status_code := 200; connections_response := Some {| data := [] |} |};
     jobs_get_job := none;
     sources_get_source := none |}.

Lemma flaky_server_fails :
  serves_then_fails (flaky_server "key" CLOUD_API_ROOT) "ws" 0
    [[conn "c1" "prod-sync"; conn "c2" "nightly"]].
Proof.
  simpl. unfold ok_page, failed_page. simpl.
  repeat split; try discriminate; [eexists; split; reflexivity | left; reflexivity].
Qed.

Lemma empty_server_serves :
  serves_pages (empty_server "key" CLOUD_API_ROOT) "ws" 0 [].
Proof. simpl. unfold ok_page. simpl. split; [reflexivity | eexists; split; reflexivity]. Qed.

Lemma list_connections_yields_accepted_witness :
  list_connections unit paged_server 3 "ws" (NFCallable (String.eqb "nightly"))
    CLOUD_API_ROOT "key"
  = ([conn "c3" "nightly"], StopIteration).
Proof.
  apply (proj2 (list_connections_yields_accepted paged_server 3 "ws" CLOUD_API_ROOT
                  "key" _ paged_server_serves ltac:(simpl; lia))
           (String.eqb "nightly")).
Defined.

Lemma list_connections_failed_page_witness :
  list_connections unit flaky_server 2 "ws" NFNone CLOUD_API_ROOT "key"
  = ([conn "c1" "prod-sync"; conn "c2" "nightly"], GenRaise AirbyteError).
Proof.
  apply (list_connections_failed_page flaky_server 2 "ws" NFNone CLOUD_API_ROOT "key"
           _ (or_introl eq_refl) flaky_server_fails).
  simpl. lia.
Defined.

Lemma list_connections_string_filter_cases_witness :
  list_connections unit empty_server 1 "ws" (NFStr "sync") CLOUD_API_ROOT "key"
  = ([], StopIteration).
Proof.
  exact (proj1 (list_connections_string_filter_cases empty_server 0 "ws" "sync"
                  CLOUD_API_ROOT "key") empty_server_serves).
Defined.

Lemma get_connection_by_name_listing_fails_witness :
  get_connection_by_name unit flaky_server 2 "ws" "nightly" CLOUD_API_ROOT "key"
  = Some (Raise AirbyteError).
Proof.
  apply (get_connection_by_name_listing_fails flaky_server 2 "ws" "nightly"
           CLOUD_API_ROOT "key" _ flaky_server_fails).
  simpl. lia.
Defined.

End ListingMore.

(** ** [get_destination]: what it raises, and when it returns None *)

Module DestinationMore.
Import ApiUtil DestinationFacts.

Section Destination.

Context {configuration : Type}.
Variable json_loads : string -> result json.
Variables snowflake bigquery postgres duckdb : json -> result configuration.
Variable server : string -> string -> string -> GetDestinationResponse configuration.

Local Abbreviation get_destination' :=
  (get_destination configuration json_loads snowflake bigquery postgres duckdb server).


End Destination.



End DestinationMore.

(** ** The legacy check endpoint: HTTP failures *)

Module LegacyMore.
Import ApiUtil LegacyFacts.

(** X15: For the Cloud API root, [check_connector_config] posts once, to
    "<legacy root>/<type>s/check_connection" with the connector id under
    "<type>Id" and the key as bearer token.  A 4xx or 5xx status raises
    HTTPError whatever the body says; otherwise a body that is not JSON
    passes its error on, and a JSON body that is not an object raises
    AttributeError. *)
Theorem check_connector_config_http
    (post : http_request -> http_response)
    (connector_id connector_type workspace_id api_key : string) :
  let run :=
    check_connector_config post connector_id connector_type workspace_id
      api_key CLOUD_API_ROOT in
  let request :=
    {| url := "https://cloud.airbyte.com/api/v1/" ++ connector_type
              ++ "s/check_connection";
       headers := [("accept", "application/json");
                   ("content-type", "application/json");
                   ("Authorization", "Bearer " ++ api_key)];
       json_body := [(connector_type ++ "Id", connector_id)] |} in
  snd run = [request]
  /\ (400 <= http_status (post request) < 600 -> fst run = Raise HTTPError)
  /\ (~ 400 <= http_status (post request) < 600 ->
      (forall e, response_json (post request) = Raise e -> fst run = Raise e)
      /\ (forall body,
            response_json (post request) = Ok body ->
            (forall members, body <> JObj members) ->
            fst run = Raise AttributeError)).
Proof.
  intros run request. subst run. unfold check_connector_config.
  rewrite transform_cloud. cbn [fst snd].
  change (check_connection_request LEGACY_API_ROOT connector_type connector_id api_key)
    with request.
  split; [reflexivity |]. unfold raise_for_status. split.
  - intros [Hlo Hhi].
    apply Z.leb_le in Hlo. apply Z.ltb_lt in Hhi. rewrite Hlo, Hhi. reflexivity.
  - intros Hout.
    assert (Hno : (400 <=? http_status (post request))
                  && (http_status (post request) <? 600) = false).
    { apply andb_false_iff.
      destruct (400 <=? http_status (post request)) eqn:Hlo; [right | left; reflexivity].
      apply Z.leb_le in Hlo. apply Z.ltb_ge. lia. }
    rewrite Hno. cbn [mbind result_bind]. split.
    + intros e ->. reflexivity.
    + intros body -> Hbody. destruct body; try reflexivity.
      exfalso. exact (Hbody _ eq_refl).
Qed.

Definition unauthorized (_ : http_request) : http_response :=
  {| http_status := 401; response_json := Ok (JObj [("status", JStr "succeeded")]) |}.

Lemma check_connector_config_http_witness :
  fst (check_connector_config unauthorized "18efe99a" "source" "ws" "key"
         CLOUD_API_ROOT) = Raise HTTPError.
Proof.
  apply (proj1 (proj2 (check_connector_config_http unauthorized "18efe99a" "source"
                         "ws" "key"))).
  simpl. lia.
Defined.

End LegacyMore.

(** ** The BigQuery processor: what a load changes *)

Module ProcessorMore.
Import BigQuery ProcessorFacts.

(** The table the load writes to, whatever the configuration is. *)
Definition destination_key (temp_table_name : string) : string * string :=
  ("dataline-integration-testing", "airbyte_raw." ++ temp_table_name).

Section Frames.

Context {column : Type}.
Variable pd_to_datetime : column -> result column.

Lemma df_getitem_setitem_same (df : DataFrame column) key value :
  df_getitem column (df_setitem column df key value) key = Ok value.
Proof.
  induction df as [|[k c] df IH]; simpl.
  - rewrite String.eqb_refl. reflexivity.
  - destruct (String.eqb k key) eqn:Hk; simpl; rewrite Hk; [reflexivity | exact IH].
Qed.

Lemma df_getitem_setitem_other (df : DataFrame column) key key' value :
  key <> key' ->
  df_getitem column (df_setitem column df key value) key'
  = df_getitem column df key'.
Proof.
  intros Hne. induction df as [|[k c] df IH]; simpl.
  - destruct (String.eqb_spec key key'); [contradiction | reflexivity].
  - destruct (String.eqb_spec k key) as [-> | Hk]; simpl.
    + destruct (String.eqb_spec key key'); [contradiction | reflexivity].
    + destruct (String.eqb k key'); [reflexivity | exact IH].
Qed.

Lemma df_setitem_columns (df : DataFrame column) key old value :
  df_getitem column df key = Ok old ->
  map fst (df_setitem column df key value) = map fst df.
Proof.
  induction df as [|[k c] df IH]; simpl; [discriminate |].
  destruct (String.eqb k key) eqn:Hk; simpl; [reflexivity |].
  intros H. rewrite (IH H). reflexivity.
Qed.

(** X19: When the timestamp conversion of a frame succeeds, the converted frame
    has the columns of the original one, in the same order; "created_at"
    and "updated_at" hold the converted values and every other column is
    the one read from the file. *)
Theorem convert_timestamps_frame (raw converted : DataFrame column) :
  convert_timestamps column pd_to_datetime raw = Ok converted ->
  map fst converted = map fst raw
  /\ (exists created, df_getitem column raw "created_at" = Ok created
                      /\ df_getitem column converted "created_at"
                         = pd_to_datetime created)
  /\ (exists updated, df_getitem column raw "updated_at" = Ok updated
                      /\ df_getitem column converted "updated_at"
                         = pd_to_datetime updated)
  /\ (forall key, key <> "created_at" -> key <> "updated_at" ->
                  df_getitem column converted key = df_getitem column raw key).
Proof.
  unfold convert_timestamps. intros H.
  apply bind_Ok in H. destruct H as [created [Hc H]].
  apply bind_Ok in H. destruct H as [created' [Hc' H]].
  apply bind_Ok in H. destruct H as [updated [Hu H]].
  apply bind_Ok in H. destruct H as [updated' [Hu' H]].
  injection H as <-.
  rewrite df_getitem_setitem_other in Hu by discriminate.
  assert (Hu1 : df_getitem column (df_setitem column raw "created_at" created')
                  "updated_at" = Ok updated)
    by (rewrite df_getitem_setitem_other by discriminate; exact Hu).
  split.
  - rewrite (df_setitem_columns _ _ _ _ Hu1). exact (df_setitem_columns _ _ _ _ Hc).
  - split; [| split].
    + exists created. split; [exact Hc |].
      rewrite df_getitem_setitem_other by discriminate.
      rewrite df_getitem_setitem_same. symmetry. exact Hc'.
    + exists updated. split; [exact Hu |].
      rewrite df_getitem_setitem_same. symmetry. exact Hu'.
    + intros key Hk1 Hk2.
      rewrite df_getitem_setitem_other by congruence.
      rewrite df_getitem_setitem_other by congruence. reflexivity.
Qed.

End Frames.

Section Loads.

Context {column credentials : Type}.
Variable read_parquet : string -> result (DataFrame column).
Variable from_service_account_file : string -> result credentials.
Variable pd_to_datetime : column -> result column.
Variable create :
  BigQueryCacheConfig -> string -> string -> warehouse column -> string * warehouse column.

Local Abbreviation load_file' :=
  (load_file column credentials read_parquet from_service_account_file pd_to_datetime).
Local Abbreviation load_files' :=
  (load_files column credentials read_parquet from_service_account_file pd_to_datetime).
Local Abbreviation write_files' :=
  (_write_files_to_new_table column credentials read_parquet
     from_service_account_file pd_to_datetime create).
Local Abbreviation loadable' := (loadable read_parquet pd_to_datetime).

(** The frames appended one after the other to the destination table. *)
Definition append_all (temp_table_name : string) (frames : list (DataFrame column))
    (w : warehouse column) : warehouse column :=
  fold_left
    (fun w frame =>
       to_gbq column frame ("airbyte_raw." ++ temp_table_name)
         "dataline-integration-testing" w)
    frames w.

Lemma append_all_other temp_table_name frames (w : warehouse column) key :
  key <> destination_key temp_table_name ->
  append_all temp_table_name frames w !! key = w !! key.
Proof.
  intros Hne. revert w. unfold append_all.
  induction frames as [|frame frames IH]; intros w; [reflexivity |].
  simpl. rewrite IH. unfold to_gbq, warehouse.
  apply lookup_insert_ne. intros Heq. apply Hne. symmetry. exact Heq.
Qed.

Lemma append_all_destination temp_table_name frames (w : warehouse column) :
  frames <> [] ->
  append_all temp_table_name frames w !! destination_key temp_table_name
  = Some (default [] (w !! destination_key temp_table_name) ++ frames)%list.
Proof.
  intros Hne. destruct frames as [|frame frames]; [contradiction |]. clear Hne.
  revert w frame. unfold append_all.
  induction frames as [|frame' frames IH]; intros w frame.
  - simpl. unfold to_gbq, warehouse. apply lookup_insert_eq.
  - change (fold_left _ (frame :: frame' :: frames) w)
      with (fold_left
              (fun w frame =>
                 to_gbq column frame ("airbyte_raw." ++ temp_table_name)
                   "dataline-integration-testing" w)
              (frame' :: frames)
              (to_gbq column frame ("airbyte_raw." ++ temp_table_name)
                 "dataline-integration-testing" w)).
    rewrite IH. unfold to_gbq, warehouse, destination_key.
    rewrite lookup_insert_eq. unfold default. cbn [from_option id].
    rewrite <- List.app_assoc. reflexivity.
Qed.

Lemma table_exists_after_load config temp_table_name frame dest proj
    (w : warehouse column) :
  _table_exists column config w temp_table_name = true ->
  _table_exists column config (to_gbq column frame dest proj w) temp_table_name = true.
Proof.
  rewrite !table_exists_lookup. unfold to_gbq, warehouse. intros Hex.
  destruct (decide ((proj, dest) = staging_key config temp_table_name)) as [-> | Hne].
  - rewrite lookup_insert_eq. eauto.
  - rewrite lookup_insert_ne by exact Hne. exact Hex.
Qed.

Lemma load_files_all config temp_table_name files frames :
  (exists c, from_service_account_file (credentials_path config) = Ok c) ->
  loadable' files frames ->
  forall w : warehouse column,
    _table_exists column config w temp_table_name = true ->
    load_files' config temp_table_name files w
    = (Ok tt, append_all temp_table_name frames w).
Proof.
  intros [c Hc] Hfiles.
  induction Hfiles as [|file_path frame files frames [raw [Hread Hconv]] _ IH];
    intros w Hex; [reflexivity |].
  simpl. unfold load_file. rewrite Hread, Hex, Hc, Hconv. cbn [negb].
  apply IH. apply table_exists_after_load. exact Hex.
Qed.

Lemma load_files_app config temp_table_name files files' (w : warehouse column) :
  load_files' config temp_table_name (files ++ files') w
  = match load_files' config temp_table_name files w with
    | (Ok _, w') => load_files' config temp_table_name files' w'
    | (Raise e, w') => (Raise e, w')
    end.
Proof.
  revert w. induction files as [|file_path files IH]; intros w; [reflexivity |].
  simpl. destruct (load_file' config temp_table_name file_path w) as [[[]|e] w'];
    [apply IH | reflexivity].
Qed.

(** X16: Whatever the configuration is: when the staging table exists after the
    creation step and the files can be read and converted, the call
    returns the staging table's name, the frames of the files are appended
    in list order to "airbyte_raw.<name>" of the project
    "dataline-integration-testing", and no other table is changed. *)
Theorem load_changes_one_table config files frames stream_name batch_id
    (w : warehouse column) :
  let created := create config stream_name batch_id w in
  let temp_table_name := fst created in
  (exists c, from_service_account_file (credentials_path config) = Ok c) ->
  loadable' files frames ->
  _table_exists column config (snd created) temp_table_name = true ->
  exists w',
    write_files' config files stream_name batch_id w = (Ok temp_table_name, w')
    /\ (forall key, key <> destination_key temp_table_name ->
                    w' !! key = snd created !! key)
    /\ (frames <> [] ->
        w' !! destination_key temp_table_name
        = Some (default [] (snd created !! destination_key temp_table_name)
                ++ frames)%list)
    /\ (frames = [] -> w' = snd created).
Proof.
  intros created temp_table_name Hc Hfiles Hex. subst temp_table_name created.
  unfold _write_files_to_new_table.
  destruct (create config stream_name batch_id w) as [temp_table_name w1].
  cbn [fst snd] in *.
  rewrite (load_files_all config temp_table_name files frames Hc Hfiles w1 Hex).
  exists (append_all temp_table_name frames w1). split; [reflexivity |].
  split; [intros key Hne; apply append_all_other; exact Hne |].
  split; [apply append_all_destination |].
  intros ->. reflexivity.
Qed.

(** X17: A batch is not rolled back: when a file cannot be read, the error is
    passed on, the frames of the files before it stay loaded, and the files
    after it are not looked at. *)
Theorem failed_file_keeps_earlier_loads
    config files frames bad rest e stream_name batch_id (w : warehouse column) :
  let created := create config stream_name batch_id w in
  let temp_table_name := fst created in
  (exists c, from_service_account_file (credentials_path config) = Ok c) ->
  loadable' files frames ->
  read_parquet bad = Raise e ->
  _table_exists column config (snd created) temp_table_name = true ->
  write_files' config (files ++ bad :: rest) stream_name batch_id w
  = (Raise e, append_all temp_table_name frames (snd created))
  /\ (frames <> [] ->
      append_all temp_table_name frames (snd created)
        !! destination_key temp_table_name
      = Some (default [] (snd created !! destination_key temp_table_name)
              ++ frames)%list).
Proof.
  intros created temp_table_name Hc Hfiles Hbad Hex. subst temp_table_name created.
  unfold _write_files_to_new_table.
  destruct (create config stream_name batch_id w) as [temp_table_name w1].
  cbn [fst snd] in *. split; [| apply append_all_destination].
  rewrite load_files_app.
  rewrite (load_files_all config temp_table_name files frames Hc Hfiles w1 Hex).
  simpl. unfold load_file. rewrite Hbad. reflexivity.
Qed.

(** X18: A file that lacks one of the columns "created_at" and "updated_at"
    cannot be loaded: KeyError is raised and the warehouse is unchanged. *)
Theorem missing_timestamp_column config temp_table_name file_path raw c
    (w : warehouse column) :
  read_parquet file_path = Ok raw ->
  _table_exists column config w temp_table_name = true ->
  from_service_account_file (credentials_path config) = Ok c ->
  (df_getitem column raw "created_at" = Raise KeyError
   \/ (exists created created',
         df_getitem column raw "created_at" = Ok created
         /\ pd_to_datetime created = Ok created'
         /\ df_getitem column raw "updated_at" = Raise KeyError)) ->
  load_file' config temp_table_name file_path w = (Raise KeyError, w)
  /\ forall rest,
      load_files' config temp_table_name (file_path :: rest) w = (Raise KeyError, w).
Proof.
  intros Hread Hex Hc Hmissing.
  assert (Hone : load_file' config temp_table_name file_path w = (Raise KeyError, w)).
  { unfold load_file, convert_timestamps. rewrite Hread, Hex, Hc. cbn [negb].
    destruct Hmissing as [-> | [created [created' [-> [Hconv Hupd]]]]];
      [reflexivity |].
    cbn [mbind result_bind]. rewrite Hconv. cbn [mbind result_bind].
    rewrite df_getitem_setitem_other by discriminate. rewrite Hupd. reflexivity. }
  split; [exact Hone |]. intros rest. simpl. rewrite Hone. reflexivity.
Qed.

End Loads.

Section Catalog.

Context {column : Type}.
Variable get_temp_table_name : string -> string -> string.

(** X20: [_get_tables_list] names exactly the tables of the configured dataset
    in the configured project, each by its name without the dataset
    prefix; tables of other datasets and projects are not listed. *)
Theorem tables_list_membership config (w : warehouse column) table_name :
  In table_name (_get_tables_list column config w)
  <-> is_Some (w !! (project config, schema_name config ++ "." ++ table_name)).
Proof.
  rewrite <- (table_exists_lookup (column := column) config w table_name).
  unfold _table_exists. rewrite existsb_exists. split.
  - intros H. exists table_name. split; [exact H | apply String.eqb_refl].
  - intros [x [Hin Heq]]. apply String.eqb_eq in Heq. subst x. exact Hin.
Qed.

(** X21: With the dataset "airbyte_raw" of the project
    "dataline-integration-testing" configured, the table the load writes to
    is the staging table: it exists before the first load, gets the frames
    of the files in list order, and its name is returned. *)
Theorem write_files_to_configured_dataset
    (credentials : Type) (read_parquet : string -> result (DataFrame column))
    (from_service_account_file : string -> result credentials)
    (pd_to_datetime : column -> result column)
    config files frames stream_name batch_id (w : warehouse column) :
  project config = "dataline-integration-testing" ->
  schema_name config = "airbyte_raw" ->
  (exists c, from_service_account_file (credentials_path config) = Ok c) ->
  loadable read_parquet pd_to_datetime files frames ->
  let temp_table_name := get_temp_table_name stream_name batch_id in
  let key := staging_key config temp_table_name in
  key = destination_key temp_table_name
  /\ is_Some (snd (create_staging_table get_temp_table_name config stream_name
                     batch_id w) !! key)
  /\ _write_files_to_new_table column credentials read_parquet
       from_service_account_file pd_to_datetime
       (create_staging_table get_temp_table_name)
       config files stream_name batch_id w
     = (Ok temp_table_name, <[key := (default [] (w !! key) ++ frames)%list]> w).
Proof.
  intros Hproj Hschema Hc Hfiles temp_table_name key. split.
  - unfold key, staging_key, destination_key, qualified.
    rewrite Hproj, Hschema. reflexivity.
  - exact (write_files_conforming read_parquet from_service_account_file
             pd_to_datetime get_temp_table_name config files frames stream_name
             batch_id w Hproj Hschema Hc Hfiles).
Qed.

End Catalog.

(** Witnesses: the faker batch, in the "analytics" dataset and in the
    dataset the load names. *)
Definition raw_config : BigQueryCacheConfig :=
  {| project := "dataline-integration-testing"; credentials_path := "/keys/sa.json";
     schema_name := "airbyte_raw" |}.

Definition one_file (file_path : string) : result (DataFrame string) :=
  if String.eqb file_path "users_b1.parquet" then Ok faker_frame else Raise OSError.

Lemma one_file_loadable : loadable one_file Ok ["users_b1.parquet"] [faker_frame].
Proof. repeat constructor. exists faker_frame. split; reflexivity. Qed.

Lemma staging_table_created :
  _table_exists string analytics_config
    (snd (create_staging_table stream_batch_name analytics_config "users" "b1" ∅))
    "users_b1" = true.
Proof. vm_compute. reflexivity. Qed.

Definition midnight (value : string) : result string := Ok (value ++ " 00:00:00").

Definition stamped_frame : DataFrame string :=
  [("id", "1"); ("created_at", "2024-01-01 00:00:00");
   ("updated_at", "2024-01-02 00:00:00")].

Lemma convert_timestamps_frame_witness :
  map fst stamped_frame = map fst faker_frame.
Proof.
  exact (proj1 (convert_timestamps_frame midnight faker_frame stamped_frame eq_refl)).
Defined.

Lemma load_changes_one_table_witness :
  exists w',
    _write_files_to_new_table string unit one_file (fun _ => Ok tt) Ok
      (create_staging_table stream_batch_name)
      analytics_config ["users_b1.parquet"] "users" "b1" ∅
    = (Ok "users_b1", w')
    /\ (forall key, key <> destination_key "users_b1" ->
                    w' !! key
                    = snd (create_staging_table stream_batch_name analytics_config
                             "users" "b1" (∅ : warehouse string)) !! key)
    /\ ([faker_frame] <> [] ->
        w' !! destination_key "users_b1"
        = Some (default []
                  (snd (create_staging_table stream_batch_name analytics_config
                          "users" "b1" (∅ : warehouse string))
                   !! destination_key "users_b1") ++ [faker_frame])%list)
    /\ ([faker_frame] = [] ->
        w' = snd (create_staging_table stream_batch_name analytics_config
                    "users" "b1" (∅ : warehouse string))).
Proof.
  apply (load_changes_one_table (credentials := unit) one_file (fun _ => Ok tt) Ok
           (create_staging_table stream_batch_name) analytics_config
           ["users_b1.parquet"] [faker_frame] "users" "b1" ∅).
  - exists tt. reflexivity.
  - exact one_file_loadable.
  - exact staging_table_created.
Defined.

Lemma failed_file_keeps_earlier_loads_witness :
  fst (_write_files_to_new_table string unit one_file (fun _ => Ok tt) Ok
         (create_staging_table stream_batch_name)
         analytics_config ["users_b1.parquet"; "gone.parquet"; "users_b3.parquet"]
         "users" "b1" ∅)
  = Raise OSError.
Proof.
  change ["users_b1.parquet"; "gone.parquet"; "users_b3.parquet"]
    with (["users_b1.parquet"] ++ ["gone.parquet"; "users_b3.parquet"])%list.
  rewrite (proj1 (failed_file_keeps_earlier_loads (credentials := unit) one_file
                    (fun _ => Ok tt) Ok (create_staging_table stream_batch_name)
                    analytics_config ["users_b1.parquet"] [faker_frame] "gone.parquet"
                    ["users_b3.parquet"] OSError "users" "b1" ∅
                    (ex_intro _ tt eq_refl) one_file_loadable eq_refl
                    staging_table_created)).
  reflexivity.
Defined.

Lemma missing_timestamp_column_witness :
  load_file string unit (fun _ => Ok [("id", "1")]) (fun _ => Ok tt) Ok
    analytics_config "users_b1" "users_b1.parquet"
    (snd (create_staging_table stream_batch_name analytics_config "users" "b1" ∅))
  = (Raise KeyError,
     snd (create_staging_table stream_batch_name analytics_config "users" "b1" ∅)).
Proof.
  apply (proj1 (missing_timestamp_column (credentials := unit)
                  (fun _ => Ok [("id", "1")]) (fun _ => Ok tt) Ok analytics_config
                  "users_b1" "users_b1.parquet" [("id", "1")] tt _
                  eq_refl staging_table_created eq_refl (or_introl eq_refl))).
Defined.

Lemma write_files_to_configured_dataset_witness :
  fst (_write_files_to_new_table string unit one_file (fun _ => Ok tt) Ok
         (create_staging_table stream_batch_name)
         raw_config ["users_b1.parquet"] "users" "b1" ∅)
  = Ok "users_b1".
Proof.
  rewrite (proj2 (proj2 (write_files_to_configured_dataset stream_batch_name unit
                           one_file (fun _ => Ok tt) Ok raw_config
                           ["users_b1.parquet"] [faker_frame] "users" "b1" ∅
                           eq_refl eq_refl (ex_intro _ tt eq_refl)
                           one_file_loadable))).
  reflexivity.
Defined.

End ProcessorMore.

(** ** The JSONL writer: files of complete lines *)

Module JsonlMore.
Import Jsonl JsonlFacts.

Lemma jsonl_stream_app a b :
  jsonl_stream (a ++ b)%list = (jsonl_stream a ++ jsonl_stream b)%list.
Proof. unfold jsonl_stream. rewrite List.map_app, List.concat_app. reflexivity. Qed.

Lemma jsonl_stream_one line : jsonl_stream [line] = (line ++ [newline])%list.
Proof. unfold jsonl_stream. simpl. apply List.app_nil_r. Qed.

Lemma lines_from_no_newline current bytes :
  ~ In newline current ->
  List.Forall (fun line => ~ In newline line) (lines_from current bytes).
Proof.
  revert current. induction bytes as [|b bytes IH]; intros current Hcur; simpl.
  - constructor.
  - destruct (Byte.eqb b newline) eqn:Hb.
    + constructor; [| apply IH; intros []].
      intros Hin. apply Hcur. apply List.in_rev. exact Hin.
    + apply IH. intros [Heq | Hin];
        [revert Heq; apply Byte.eqb_false; exact Hb | exact (Hcur Hin)].
Qed.

(** The stream is a sequence of complete lines: it is what its lines give
    back when each is closed by a newline. *)
Definition complete_lines (bytes : list Byte.byte) : Prop :=
  bytes = jsonl_stream (lines bytes).

Section Writer.

Context {StreamRecord : Type}.
Variable dumps : StreamRecord -> result (list Byte.byte).

(** The serializer never emits a newline byte. *)
Hypothesis dumps_one_line :
  forall record_dict serialized,
    dumps record_dict = Ok serialized -> ~ In newline serialized.

Lemma write_record_complete record_dict f :
  complete_lines (written f) ->
  complete_lines (written (snd (_write_record_dict StreamRecord dumps record_dict f))).
Proof.
  unfold complete_lines, _write_record_dict. intros Hf.
  destruct (dumps record_dict) as [serialized|e] eqn:Hd; [| exact Hf].
  assert (Hls : List.Forall (fun line => ~ In newline line) (lines (written f)))
    by (apply lines_from_no_newline; intros []).
  simpl. revert Hf Hls. generalize (lines (written f)). intros ls Hf Hls.
  rewrite Hf, <- (jsonl_stream_one serialized), <- jsonl_stream_app.
  rewrite lines_jsonl_stream; [reflexivity |].
  apply List.Forall_app. split; [exact Hls |].
  constructor; [exact (dumps_one_line _ _ Hd) | constructor].
Qed.

(** X22: Writing records keeps a file of complete lines a file of complete
    lines, also when a record cannot be serialized and the writing stops:
    what has been written before stays a prefix of the stream and no
    partial line is ever left behind. *)
Theorem writes_keep_complete_lines records f :
  complete_lines (written f) ->
  let f' := snd (write_records StreamRecord dumps records f) in
  complete_lines (written f')
  /\ gz_path f' = gz_path f
  /\ exists added, written f' = (written f ++ added)%list.
Proof.
  revert f. induction records as [|r records IH]; intros f Hf; simpl.
  - split; [exact Hf |]. split; [reflexivity |]. exists []. symmetry. apply List.app_nil_r.
  - pose proof (write_record_complete r f Hf) as Hstep.
    unfold _write_record_dict in *.
    destruct (dumps r) as [serialized|e] eqn:Hd; simpl in *.
    + destruct (IH (gz_write f (serialized ++ [newline])%list) Hstep)
        as [Hc [Hp [added Ha]]].
      split; [exact Hc |]. split; [exact Hp |].
      exists ((serialized ++ [newline]) ++ added)%list.
      rewrite Ha. simpl. rewrite <- !List.app_assoc. reflexivity.
    + split; [exact Hf |]. split; [reflexivity |]. exists [].
      symmetry. apply List.app_nil_r.
Qed.

(** X23: When a record of a batch cannot be serialized, the error is passed on
    and the new file holds exactly the lines of the records before it, in
    order; the records after it are not written. *)
Theorem failed_record_keeps_earlier_lines
    file_path records serialized bad rest e :
  List.Forall2 (fun r line => dumps r = Ok line) records serialized ->
  dumps bad = Raise e ->
  exists f',
    write_records StreamRecord dumps (records ++ bad :: rest)%list
      (_open_new_file file_path)
    = (Raise e, f')
    /\ written f' = jsonl_stream serialized
    /\ lines (written f') = serialized.
Proof.
  intros Hall Hbad.
  assert (Hgen : forall f,
             exists f',
               write_records StreamRecord dumps (records ++ bad :: rest)%list f
               = (Raise e, f')
               /\ written f' = (written f ++ jsonl_stream serialized)%list).
  { induction Hall as [|r line records serialized Hr _ IH]; intros f.
    - exists f. simpl. unfold _write_record_dict. rewrite Hbad.
      split; [reflexivity |]. symmetry. apply List.app_nil_r.
    - simpl. rewrite (write_record_appends dumps r f line Hr).
      destruct (IH (gz_write f (line ++ [newline])%list)) as [f' [Hw Hb]].
      exists f'. split; [exact Hw |]. rewrite Hb. unfold jsonl_stream. simpl.
      rewrite <- !List.app_assoc. reflexivity. }
  destruct (Hgen (_open_new_file file_path)) as [f' [Hw Hb]].
  exists f'. split; [exact Hw |]. simpl in Hb. split; [exact Hb |].
  rewrite Hb. apply lines_jsonl_stream.
  clear - Hall dumps_one_line.
  induction Hall as [|r line records serialized Hr _ IH]; constructor;
    [exact (dumps_one_line _ _ Hr) | exact IH].
Qed.

End Writer.

Lemma digit_dumps_one_line n serialized :
  digit_dumps n = Ok serialized -> ~ In newline serialized.
Proof.
  destruct n as [|[|[|n]]]; simpl; intros [= <-]; intros [H | []]; discriminate H.
Qed.

Lemma writes_keep_complete_lines_witness :
  complete_lines
    (written (snd (write_records nat digit_dumps [2; 7; 1]%nat
                     (_open_new_file "batch.jsonl.gz")))).
Proof.
  apply (writes_keep_complete_lines digit_dumps digit_dumps_one_line [2; 7; 1]%nat
           (_open_new_file "batch.jsonl.gz")).
  reflexivity.
Defined.

Lemma failed_record_keeps_earlier_lines_witness :
  exists f',
    write_records nat digit_dumps [2; 0; 7; 1]%nat (_open_new_file "batch.jsonl.gz")
    = (Raise TypeError, f')
    /\ written f' = jsonl_stream [[Byte.x32]; [Byte.x30]]
    /\ lines (written f') = [[Byte.x32]; [Byte.x30]].
Proof.
  apply (failed_record_keeps_earlier_lines digit_dumps digit_dumps_one_line
           "batch.jsonl.gz" [2; 0]%nat [[Byte.x32]; [Byte.x30]] 7%nat [1%nat]
           TypeError).
  - repeat constructor.
  - reflexivity.
Defined.

End JsonlMore.

(** ** The record count of the performance test *)

Module PerfTestFacts.
Import PerfTest.

(** X24: [num_records]: a non-zero [n] is the record count, whatever [e] is;
    without it, or with [n = 0], the count is [5 * 10 ^ e] for a positive
    [e], and 5000 both without [e] and for [e = 0]: a scale of zero
    cannot be asked for.  A negative [e] gives no integer count. *)
Theorem num_records_cases :
  (forall e n, n <> 0 -> num_records e (Some n) = Some n)
  /\ (forall e, 0 < e ->
                num_records (Some e) None = Some (5 * 10 ^ e)
                /\ num_records (Some e) (Some 0) = Some (5 * 10 ^ e))
  /\ num_records None None = Some 5000
  /\ num_records (Some 0) None = Some 5000
  /\ (forall e, e < 0 -> num_records (Some e) None = None).
Proof.
  unfold num_records, scaled, int_or. repeat split.
  - intros e n Hn. destruct (Z.eqb_spec n 0); [contradiction | reflexivity].
  - destruct (Z.eqb_spec e 0); [lia |]. destruct (Z.ltb_spec e 0); [lia | reflexivity].
  - simpl. destruct (Z.eqb_spec e 0); [lia |].
    destruct (Z.ltb_spec e 0); [lia | reflexivity].
  - intros e He. destruct (Z.eqb_spec e 0); [lia |].
    destruct (Z.ltb_spec e 0); [reflexivity | lia].
Qed.

Lemma num_records_cases_witness :
  num_records (Some 4) None = Some 50000.
Proof.
  exact (proj1 (proj1 (proj2 num_records_cases) 4 ltac:(lia))).
Defined.

(** X25: Without [n], a larger scale never gives fewer records, and every
    count is a positive multiple of five. *)
Theorem num_records_monotone e1 e2 r1 r2 :
  0 < e1 <= e2 ->
  num_records (Some e1) None = Some r1 ->
  num_records (Some e2) None = Some r2 ->
  0 < r1 <= r2 /\ r1 mod 5 = 0.
Proof.
  intros He H1 H2.
  destruct num_records_cases as [_ [Hpos _]].
  rewrite (proj1 (Hpos e1 ltac:(lia))) in H1.
  rewrite (proj1 (Hpos e2 ltac:(lia))) in H2.
  injection H1 as <-. injection H2 as <-.
  assert (0 < 10 ^ e1) by (apply Z.pow_pos_nonneg; lia).
  assert (10 ^ e1 <= 10 ^ e2) by (apply Z.pow_le_mono_r; lia).
  split; [lia |]. rewrite Z.mul_comm. apply Z.mod_mul. lia.
Qed.

Lemma num_records_monotone_witness :
  0 < 500 <= 5000 /\ 500 mod 5 = 0.
Proof.
  exact (num_records_monotone 2 3 500 5000 ltac:(lia) eq_refl eq_refl).
Defined.

End PerfTestFacts.

(** ** The modules the documentation is generated for *)

Module DocsFacts.
Import Docs.

Lemma prefix_underscore_path submodule :
  String.prefix "airbyte/_" ("airbyte/" ++ submodule) = String.prefix "_" submodule.
Proof. reflexivity. Qed.

(** X26: A path is rendered exactly when it is "airbyte/<name>" for a listed
    name that does not start with an underscore; so no private module
    ("airbyte/_...") is ever rendered, and the listing order is kept. *)
Theorem public_modules_spec listing :
  (forall path,
      In path (public_modules listing)
      <-> exists submodule,
            In submodule listing
            /\ String.prefix "_" submodule = false
            /\ path = "airbyte/" ++ submodule)
  /\ (forall path, In path (public_modules listing) ->
                   String.prefix "airbyte/_" path = false)
  /\ (forall more,
        public_modules (listing ++ more)%list
        = (public_modules listing ++ public_modules more)%list).
Proof.
  assert (Hiff : forall path,
             In path (public_modules listing)
             <-> exists submodule,
                   In submodule listing
                   /\ String.prefix "_" submodule = false
                   /\ path = "airbyte/" ++ submodule).
  { intros path. induction listing as [|s listing IH]; simpl.
    - split; [intros [] | intros [x [[] _]]].
    - destruct (String.prefix "_" s) eqn:Hs; simpl.
      + rewrite IH. split.
        * intros [x [Hin Hx]]. exists x. split; [right; exact Hin | exact Hx].
        * intros [x [[<- | Hin] [Hp Hx]]]; [congruence | exists x; auto].
      + rewrite IH. split.
        * intros [<- | [x [Hin Hx]]]; [exists s; auto | exists x; tauto].
        * intros [x [[<- | Hin] [Hp Hx]]]; [left; auto | right; exists x; auto]. }
  split; [exact Hiff |]. split.
  - intros path Hin. apply Hiff in Hin. destruct Hin as [s [_ [Hp ->]]].
    rewrite prefix_underscore_path. exact Hp.
  - clear Hiff. intros more. induction listing as [|s listing IH]; [reflexivity |].
    simpl. destruct (String.prefix "_" s); simpl; [| f_equal]; exact IH.
Qed.

End DocsFacts.
